(** * Notes-expansion backend: the request handler and the static fallback

    A shallow embedding of [app.py]: the handler [process_notes] behind
    POST /api/process_notes, its nested helper [save_failed_prompt], and
    the catch-all GET handler [serve_react].

    Python [str] values are UTF-8 byte strings, a lone surrogate being
    its three bytes ED A0..BF 80..BF; JSON documents are Python values,
    exceptions are carried by their [str()] text, and the effects
    of a request (the provider call, the clock read, the file write and
    the lines printed) are threaded through an explicit [world]. *)

From Stdlib Require Import ZArith Ascii SpecFloat Lia.
From stdpp Require Import base option list strings gmap.

Local Open Scope Z_scope.

(** ** Python [str] operations used by the handlers *)

Module Str.

(** The double quote, kept out of the literals that need it. *)
Definition dq : string := String "034"%char "".
Definition nl : string := String "010"%char "".

Definition code (c : ascii) : nat := nat_of_ascii c.

(** [s.lower()] on the ASCII letters. Outside ASCII the only characters
    whose lower case contains an ASCII letter are U+0130 and U+212A,
    which yield "i" + U+0307 and "k": neither can complete one of the
    markers tested by [process_notes]. *)
Definition lower_char (c : ascii) : ascii :=
  if ((65 <=? code c) && (code c <=? 90))%nat
  then ascii_of_nat (code c + 32) else c.

Fixpoint lower (s : string) : string :=
  match s with
  | EmptyString => EmptyString
  | String c r => String (lower_char c) (lower r)
  end.

(** [needle in hay]. *)
Fixpoint contains (needle hay : string) : bool :=
  String.prefix needle hay ||
  match hay with
  | EmptyString => false
  | String _ r => contains needle r
  end.

(** White space as [str.strip()] sees it: the one-byte characters
    U+0009..U+000D, U+001C..U+0020 and the UTF-8 encodings of U+0085,
    U+00A0, U+1680, U+2000..U+200A, U+2028, U+2029, U+202F, U+205F and
    U+3000. *)
Definition space1 (a : ascii) : bool :=
  (((9 <=? code a) && (code a <=? 13)) || ((28 <=? code a) && (code a <=? 32)))%nat.

Definition space2 (a b : ascii) : bool :=
  ((code a =? 194) && ((code b =? 133) || (code b =? 160)))%nat.

Definition space3 (a b c : ascii) : bool :=
  (((code a =? 225) && (code b =? 154) && (code c =? 128))
   || ((code a =? 226) && (code b =? 128)
       && (((128 <=? code c) && (code c <=? 138))
           || (code c =? 168) || (code c =? 169) || (code c =? 175)))
   || ((code a =? 226) && (code b =? 129) && (code c =? 159))
   || ((code a =? 227) && (code b =? 128) && (code c =? 128)))%nat.

(** Drops leading white space. With [back] set the string is read from
    its end, so the bytes of a character arrive last byte first. *)
Fixpoint skip_spaces (back : bool) (s : string) : string :=
  match s with
  | String a r1 =>
      if space1 a then skip_spaces back r1 else
      match r1 with
      | String b r2 =>
          if (if back then space2 b a else space2 a b) then skip_spaces back r2 else
          match r2 with
          | String c r3 =>
              if (if back then space3 c b a else space3 a b c)
              then skip_spaces back r3 else s
          | EmptyString => s
          end
      | EmptyString => s
      end
  | EmptyString => s
  end.

Definition lstrip (s : string) : string := skip_spaces false s.
Definition rstrip (s : string) : string := String.rev (skip_spaces true (String.rev s)).

(** [s.strip()]. *)
Definition strip (s : string) : string := rstrip (lstrip s).

(** [sep.join(parts)]. *)
Fixpoint join (sep : string) (parts : list string) : string :=
  match parts with
  | [] => ""
  | [p] => p
  | p :: rest => p +:+ sep +:+ join sep rest
  end.

(** Decimal digits, as [%d] prints them. *)
Definition digit (z : Z) : ascii := ascii_of_nat (Z.to_nat (48 + z mod 10)).

Fixpoint decimal_go (fuel : nat) (z : Z) (acc : string) : string :=
  match fuel with
  | O => acc
  | S fuel' =>
      let acc' := String (digit z) acc in
      if z / 10 =? 0 then acc' else decimal_go fuel' (z / 10) acc'
  end.

(** [str(z)] of an [int]. *)
Definition decimal (z : Z) : string :=
  let digits := decimal_go (S (Z.to_nat (Z.log2 (Z.abs z)))) (Z.abs z) "" in
  if z <? 0 then "-" +:+ digits else digits.

(** Two digits, zero padded, as [%m], [%d], [%H], [%M] and [%S] print. *)
Definition pad2 (z : Z) : string :=
  String (digit (z / 10)) (String (digit z) "").

Definition is_digit (c : ascii) : bool := ((48 <=? code c) && (code c <=? 57))%nat.

End Str.

(** ** Python values

    The values [json.loads] and [request.get_json] produce. A [dict] is
    an association list in insertion order with pairwise distinct keys;
    a [float] is an IEEE 754 binary64 datum. *)

#[warning="-register-all"]
Inductive json : Type :=
| JNull
| JBool (b : bool)
| JInt (n : Z)
| JFloat (x : spec_float)
| JStr (s : string)
| JArr (items : list json)
| JObj (fields : list (string * json)).

Abbreviation dict := (list (string * json)).

(** Exceptions are observed only through [str(e)]. *)
Inductive exn (A : Type) : Type :=
| Ok (a : A)
| Raise (msg : string).
Arguments Ok {A} a.
Arguments Raise {A} msg.

#[global] Instance exn_ret : MRet exn := fun A a => Ok a.
#[global] Instance exn_bind : MBind exn := fun A B k m =>
  match m with
  | Ok a => k a
  | Raise e => Raise e
  end.

Module Py.

(** Truth value of an object, as [or] tests it. *)
Definition truthy (v : json) : bool :=
  match v with
  | JNull => false
  | JBool b => b
  | JInt n => negb (n =? 0)
  | JFloat (S754_zero _) => false
  | JFloat _ => true
  | JStr s => negb (String.eqb s "")
  | JArr items => match items with [] => false | _ => true end
  | JObj fields => match fields with [] => false | _ => true end
  end.

(** [a or b]. *)
Definition or_else (a b : json) : json := if truthy a then a else b.

Fixpoint lookup (d : dict) (key : string) : option json :=
  match d with
  | [] => None
  | (k, v) :: rest => if String.eqb k key then Some v else lookup rest key
  end.

(** [d[key] = v]: an existing key keeps its place. *)
Fixpoint setitem (d : dict) (key : string) (v : json) : dict :=
  match d with
  | [] => [(key, v)]
  | (k, v0) :: rest =>
      if String.eqb k key then (k, v) :: rest else (k, v0) :: setitem rest key v
  end.

Definition type_name (v : json) : string :=
  match v with
  | JNull => "NoneType"
  | JBool _ => "bool"
  | JInt _ => "int"
  | JFloat _ => "float"
  | JStr _ => "str"
  | JArr _ => "list"
  | JObj _ => "dict"
  end.

(** The text of the AttributeError raised by [obj.attr]. *)
Definition no_attribute (v : json) (attr : string) : string :=
  "'" +:+ type_name v +:+ "' object has no attribute '" +:+ attr +:+ "'".

(** [obj.get(key, default)]: only a [dict] has the method. *)
Definition get (obj : json) (key : string) (default : json) : exn json :=
  match obj with
  | JObj d => Ok (from_option id default (lookup d key))
  | _ => Raise (no_attribute obj "get")
  end.

Definition hex_digit (n : nat) : ascii :=
  if (n <? 10)%nat then ascii_of_nat (48 + n) else ascii_of_nat (87 + n).

(** [n] as [k] lower-case hexadecimal digits. *)
Fixpoint hex (k : nat) (n : Z) : string :=
  match k with
  | O => ""
  | S k' => hex k' (n / 16) +:+ String (hex_digit (Z.to_nat (n mod 16))) ""
  end.

(** A character of ASCII inside [repr(s)]. *)
Definition repr_char (quote c : ascii) : string :=
  let n := Str.code c in
  if Ascii.eqb c quote || Ascii.eqb c "\"%char then String "\"%char (String c "")
  else if (n =? 9)%nat then "\t"
  else if (n =? 10)%nat then "\n"
  else if (n =? 13)%nat then "\r"
  else if ((n <? 32) || (n =? 127))%nat
       then String "\"%char (String "x"%char
              (String (hex_digit (n / 16)) (String (hex_digit (n mod 16)) "")))
  else String c "".

(** A continuation byte of UTF-8, and its six bits. *)
Definition cont (c : ascii) : bool := ((128 <=? Str.code c) && (Str.code c <? 192))%nat.
Definition low6 (c : ascii) : Z := Z.of_nat (Str.code c) - 128.

(** The lead byte of a sequence of [k] bytes, and its bits. *)
Definition lead (k : nat) (c : ascii) : bool :=
  match k with
  | 2%nat => ((192 <=? Str.code c) && (Str.code c <? 224))%nat
  | 3%nat => ((224 <=? Str.code c) && (Str.code c <? 240))%nat
  | 4%nat => ((240 <=? Str.code c) && (Str.code c <? 248))%nat
  | _ => false
  end.
Definition high (k : nat) (c : ascii) : Z :=
  match k with
  | 2%nat => Z.of_nat (Str.code c) - 192
  | 3%nat => Z.of_nat (Str.code c) - 224
  | _ => Z.of_nat (Str.code c) - 240
  end.

(** A lone surrogate, U+D800 to U+DFFF, is the three bytes ED, A0..BF
    and a continuation byte. *)
Definition surrogate (a b c : ascii) : bool :=
  ((Str.code a =? 237) && (160 <=? Str.code b) && (Str.code b <? 192))%nat && cont c.

Fixpoint surrogate_run (s : string) : Z :=
  match s with
  | String a (String b (String c r)) => if surrogate a b c then 1 + surrogate_run r else 0
  | _ => 0
  end.

(** The first lone surrogate of [s]: its position counted in characters
    from [index], its code point, and how many surrogates stand there in
    a row. *)
Fixpoint first_surrogate (s : string) (index : Z) : option (Z * Z * Z) :=
  match s with
  | String a r =>
      match r with
      | String b (String c r') =>
          if surrogate a b c
          then Some (index, (high 3 a * 64 + low6 b) * 64 + low6 c, 1 + surrogate_run r')
          else first_surrogate r (if cont a then index else index + 1)
      | _ => first_surrogate r (if cont a then index else index + 1)
      end
  | EmptyString => None
  end.

(** [text.encode("utf-8")] raises on a lone surrogate; this is the text
    of the UnicodeEncodeError, or [None] when the text can be encoded. *)
Definition encode_error (text : string) : option string :=
  match first_surrogate text 0 with
  | None => None
  | Some (index, cp, run) =>
      Some ("'utf-8' codec can't encode "
            +:+ (if run =? 1
                 then "character '\u" +:+ hex 4 cp +:+ "' in position " +:+ Str.decimal index
                 else "characters in position " +:+ Str.decimal index +:+ "-"
                      +:+ Str.decimal (index + run - 1))
            +:+ ": surrogates not allowed")
  end.

Section Repr.
(** [repr(x)] of a [float], the shortest decimal that reads back as
    [x], is the interpreter's. *)
Variable float_repr : spec_float -> string.
(** [str.isprintable] of a character outside ASCII, by its code point,
    is the interpreter's edition of the Unicode database. *)
Variable printable : Z -> bool.

(** A character outside ASCII, given by its code point and its bytes,
    inside [repr(s)]. *)
Definition repr_wide (cp : Z) (bytes : string) : string :=
  if printable cp then bytes
  else if cp <? 256 then "\x" +:+ hex 2 cp
  else if cp <? 65536 then "\u" +:+ hex 4 cp
  else "\U" +:+ hex 8 cp.

Fixpoint repr_chars (quote : ascii) (s : string) : string :=
  match s with
  | EmptyString => EmptyString
  | String a r1 =>
      if (Str.code a <? 128)%nat then repr_char quote a +:+ repr_chars quote r1 else
      match r1 with
      | String b r2 =>
          if lead 2 a && cont b
          then repr_wide (high 2 a * 64 + low6 b) (String a (String b ""))
               +:+ repr_chars quote r2
          else
          match r2 with
          | String c r3 =>
              if lead 3 a && cont b && cont c
              then repr_wide ((high 3 a * 64 + low6 b) * 64 + low6 c)
                     (String a (String b (String c "")))
                   +:+ repr_chars quote r3
              else
              match r3 with
              | String d r4 =>
                  if lead 4 a && cont b && cont c && cont d
                  then repr_wide (((high 4 a * 64 + low6 b) * 64 + low6 c) * 64 + low6 d)
                         (String a (String b (String c (String d ""))))
                       +:+ repr_chars quote r4
                  else String a (repr_chars quote r1)
              | EmptyString => String a (repr_chars quote r1)
              end
          | EmptyString => String a (repr_chars quote r1)
          end
      | EmptyString => String a ""
      end
  end.

(** [repr(s)] of a [str]. *)
Definition repr_str (s : string) : string :=
  let quote :=
    if Str.contains "'" s && negb (Str.contains Str.dq s) then "034"%char else "'"%char in
  String quote (repr_chars quote s) +:+ String quote "".

Fixpoint repr (v : json) : string :=
  match v with
  | JNull => "None"
  | JBool true => "True"
  | JBool false => "False"
  | JInt n => Str.decimal n
  | JFloat x => float_repr x
  | JStr s => repr_str s
  | JArr items => "[" +:+ Str.join ", " (List.map repr items) +:+ "]"
  | JObj fields =>
      "{" +:+ Str.join ", "
                (List.map (fun kv => repr_str (fst kv) +:+ ": " +:+ repr (snd kv)) fields)
          +:+ "}"
  end.

(** [str(v)], which is what an f-string field [{v}] interpolates. *)
Definition str (v : json) : string :=
  match v with
  | JStr s => s
  | _ => repr v
  end.
End Repr.

End Py.

(** ** The operating system and the libraries, as the handlers use them *)

Record datetime : Type := {
  year : Z; month : Z; day : Z;
  hour : Z; minute : Z; second : Z
}.

(** [dt.strftime("%Y%m%dT%H%M%SZ")]; [%Y] prints the year unpadded. *)
Definition strftime (dt : datetime) : string :=
  Str.decimal (year dt) +:+ Str.pad2 (month dt) +:+ Str.pad2 (day dt) +:+ "T"
  +:+ Str.pad2 (hour dt) +:+ Str.pad2 (minute dt) +:+ Str.pad2 (second dt) +:+ "Z".

(** What a request does to its surroundings, in order. *)
Inductive event : Type :=
| Generate (contents : string)
| OpenWrite (path content : string)
| Print (line : string).

(** How the disk makes [with open(path, "w") as f: f.write(text)] fail:
    [open] raises and the file is as it was, or [open] has created or
    emptied the file and writing or closing raises, with [kept] in the
    file. *)
Inductive write_failure : Type :=
| OpenRaises (err : string)
| WriteRaises (err kept : string).

(** [files] holds the regular files and their text, [dirs] the
    directories, [write_errors] the paths on which the disk refuses a
    write, and how, and [clock] the UTC time. *)
Record world : Type := {
  files : gmap string string;
  dirs : gset string;
  write_errors : gmap string write_failure;
  clock : datetime;
  trace : list event
}.

Module Os.

Definition log (e : event) (w : world) : world :=
  {| files := files w; dirs := dirs w; write_errors := write_errors w;
     clock := clock w; trace := trace w ++ [e] |}.

(** [print(label, x)] writes the two, separated by a space. *)
Definition print (label x : string) (w : world) : world :=
  log (Print (label +:+ " " +:+ x)) w.

Definition ends_with_slash (p : string) : bool :=
  match String.rev p with
  | String c _ => Ascii.eqb c "/"%char
  | EmptyString => false
  end.

(** [os.path.join(a, b)] of posixpath. *)
Definition path_join (a b : string) : string :=
  if String.prefix "/" b then b
  else if String.eqb a "" || ends_with_slash a then a +:+ b
  else a +:+ "/" +:+ b.

(** [os.path.exists(p)]. *)
Definition path_exists (p : string) (w : world) : bool :=
  bool_decide (is_Some (files w !! p)) || bool_decide (p ∈ dirs w).

Definition set_file (path text : string) (w : world) : world :=
  {| files := <[path := text]> (files w); dirs := dirs w;
     write_errors := write_errors w; clock := clock w; trace := trace w |}.

(** What a write that the disk does not refuse leaves in the file: the
    text, or nothing when the text cannot be encoded. *)
Definition stored (text : string) : string :=
  match Py.encode_error text with
  | Some _ => ""
  | None => text
  end.

(** [with open(path, "w", encoding="utf-8") as f: f.write(text)]:
    [open] creates or empties the file, [f.write] encodes the text and
    hands it to the disk, and leaving the block closes the file. *)
Definition write_text (path text : string) (w : world) : exn unit * world :=
  let w' := log (OpenWrite path text) w in
  match write_errors w !! path with
  | Some (OpenRaises err) => (Raise err, w')
  | failure =>
      match Py.encode_error text with
      | Some err => (Raise err, set_file path "" w')
      | None =>
          match failure with
          | Some (WriteRaises err kept) => (Raise err, set_file path kept w')
          | _ => (Ok tt, set_file path text w')
          end
      end
  end.

(** [datetime.utcnow()]. *)
Definition utcnow (w : world) : datetime := clock w.

(** The surroundings at a later (or the same) time [t]: between two
    requests only the clock moves. *)
Definition at_time (t : datetime) (w : world) : world :=
  {| files := files w; dirs := dirs w; write_errors := write_errors w;
     clock := t; trace := trace w |}.

End Os.

(** What a view returns: a JSON document with its status, or the call
    [send_from_directory(directory, path)], which Werkzeug answers with
    the file when a regular file is there and with 404 otherwise. *)
Inductive response : Type :=
| Json (status : Z) (payload : json)
| SentFile (directory path : string).

Definition jsonify (v : json) : response := Json 200 v.
Definition send_from_directory (directory path : string) : response :=
  SentFile directory path.

(** [return resp, status]. *)
Definition with_status (r : response) (status : Z) : response :=
  match r with
  | Json _ v => Json status v
  | SentFile d p => SentFile d p
  end.

(** The arguments of [client.models.generate_content]. *)
Record generate_request : Type := {
  model : string;
  contents : string;
  response_mime_type : string;
  thinking_budget : Z
}.

(** The provider either raises or returns a response whose [text] is a
    [str], or [None] when the reply carries no text part. *)
Abbreviation provider := (generate_request -> exn (option string)).

(** ** The application *)

Definition PORT : Z := 5002.

(** A double-quoted word of the prompt. *)
Definition quoted (s : string) : string := Str.dq +:+ s +:+ Str.dq.

(** The lines of the f-string of [process_notes], fields interpolated. *)
Definition prompt_lines (topic tone notes : string) : list string :=
  [ "";
    "    You are a note-taking assistant. The user provides shorthand notes that may be incomplete,";
    "    incoherent, or contain symbols. Your job is to expand them into clear notes and return ";
    "    structured JSON with additional extracted information.";
    "";
    "    Tones may include: Class Lecture, Formal Meeting, Informal Meeting, Scientific Talk, ";
    "    Business Plan, Travel Plan.";
    "";
    "    Rules:";
    "    1. Stay faithful to the provided notes, topic, and tone. Do not hallucinate new content.";
    "    2. Expand shorthand into clear, plain text notes in the given tone.";
    "    3. The " +:+ quoted "expandedNotes"
      +:+ " field must be a single string, but preserve line breaks (`\n`) ";
    "       and allow simple bullet points using a hyphen (`-`).";
    "    4. If shorthand or unclear phrases cannot be expanded, keep them as is or mark with [NEEDS CLARIFICATION].";
    "    5. If the notes contain " +:+ quoted "??"
      +:+ ", provide a concise textbook-level explanation and record it under "
      +:+ quoted "explain" +:+ ".";
    "    6. If notes contain multiple asterisks (" +:+ "** or ****" +:+ "), treat as important and record under "
      +:+ quoted "important" +:+ ".";
    "    7. Identify and record tasks, reminders, or actionable items under " +:+ quoted "tasks" +:+ ".";
    "    8. Identify and record meeting-related information (schedule, setup, follow-up) under "
      +:+ quoted "meeting" +:+ ".";
    "    9. Output must be valid JSON only, no extra text, no Markdown, no explanations.";
    "";
    "    JSON Schema (must follow exactly):";
    "    {";
    "      " +:+ quoted "expandedNotes" +:+ ": "
      +:+ quoted "string (multiline, with \n and - for bullets)" +:+ ",";
    "      " +:+ quoted "important" +:+ ": [" +:+ quoted "list of important points" +:+ "],";
    "      " +:+ quoted "explain" +:+ ": ["
      +:+ quoted "list of misunderstood/?? terms with explanation" +:+ "],";
    "      " +:+ quoted "tasks" +:+ ": [" +:+ quoted "list of tasks/reminders" +:+ "],";
    "      " +:+ quoted "meeting" +:+ ": [" +:+ quoted "list of meeting-related info" +:+ "]";
    "    }";
    "";
    "    Topic: " +:+ topic;
    "    Tone: " +:+ tone;
    "    Scribbled Notes:";
    "    " +:+ notes;
    "    " ].

(** The body returned when the reply is not JSON. *)
Definition fallback (text : string) : json :=
  JObj [ ("expandedNotes", JStr text);
         ("important", JArr []);
         ("explain", JArr []);
         ("tasks", JArr []);
         ("meeting", JArr []) ].

(** What stands between the topic and the notes in the prompt of a
    given tone. *)
Definition field_break (tone : string) : string :=
  Str.nl +:+ "    Tone: " +:+ tone +:+ Str.nl +:+ "    Scribbled Notes:" +:+ Str.nl +:+ "    ".

Definition unavailable_message : string :=
  "The AI model is not available. Please try again later.".

(** Lines 72 to 79: what is sent to the provider. *)
Definition provider_request (prompt : string) : generate_request :=
  {| model := "gemini-2.5-flash"; contents := prompt;
     response_mime_type := "application/json"; thinking_budget := 0 |}.

Section App.

(** [json.loads] on a [str]: the value, or [None] when it raises. *)
Variable json_loads : string -> option json.
(** [repr] of a [float], and [str.isprintable] outside ASCII. *)
Variable float_repr : spec_float -> string.
Variable printable : Z -> bool.
(** [os.path.dirname(__file__)] and [app.static_folder]. *)
Variable here : string.
Variable static_folder : string.

Definition FAILED_PROMPTS_DIR : string := Os.path_join here "failed_prompts".

(** The f-string: each field goes through [str]. *)
Definition build_prompt (topic tone notes : json) : string :=
  Str.join Str.nl
    (prompt_lines (Py.str float_repr printable topic) (Py.str float_repr printable tone)
                  (Py.str float_repr printable notes)).

(** Lines 31 to 69: the prompt of a request body, or the exception
    that [data.get] raises on a body that is not a [dict]. *)
Definition request_prompt (body : json) : exn string :=
  let data := Py.or_else body (JObj []) in
  topic ← Py.get data "topic" (JStr "");
  notes ← Py.get data "notes" (JStr "");
  tone ← Py.get data "tone" (JStr "General");
  mret (build_prompt topic tone notes).

Definition generate_content (client : provider) (prompt : string) (w : world)
  : exn (option string) * world :=
  (client (provider_request prompt), Os.log (Generate prompt) w).

(** [json.loads(response.text)]. *)
Definition loads (text : option string) : exn json :=
  match text with
  | Some s =>
      match json_loads s with
      | Some v => Ok v
      | None => Raise "JSONDecodeError"
      end
  | None => Raise "the JSON object must be str, bytes or bytearray, not NoneType"
  end.

(** [response.text.strip()]. *)
Definition text_strip (text : option string) : exn string :=
  match text with
  | Some s => Ok (Str.strip s)
  | None => Raise (Py.no_attribute JNull "strip")
  end.

(** Lines 82 to 92: the inner [try] and its fallback. *)
Definition parse_reply (text : option string) : exn json :=
  match loads text with
  | Ok parsed => Ok parsed
  | Raise _ =>
      stripped ← text_strip text;
      mret (fallback stripped)
  end.

Definition save_failed_prompt (prompt_text : string) (w : world) : exn unit * world :=
  let ts := strftime (Os.utcnow w) in
  let filename := "failed_prompt_" +:+ ts +:+ ".txt" in
  let path := Os.path_join FAILED_PROMPTS_DIR filename in
  match Os.write_text path prompt_text w with
  | (Ok _, w1) => (Ok tt, Os.print "Saved failed prompt to:" path w1)
  | (Raise save_e, w1) => (Ok tt, Os.print "Failed to save prompt:" save_e w1)
  end.

(** Line 112. *)
Definition is_unavailable (err_text : string) : bool :=
  let lowered := Str.lower err_text in
  Str.contains "503" err_text
  || Str.contains "unavailable" lowered
  || Str.contains "model is overloaded" lowered.

(** Lines 96 to 119: the outer [except]. *)
Definition on_error (prompt err_text : string) (w : world) : response * world :=
  let w1 := Os.print "Error generating content:" err_text w in
  if is_unavailable err_text then
    let w2 := match save_failed_prompt prompt w1 with
              | (Ok _, w2) => w2
              | (Raise _, w2) => w2
              end in
    (with_status (jsonify (JObj [("error", JStr unavailable_message)])) 503, w2)
  else
    (with_status (jsonify (JObj [("error", JStr err_text)])) 500, w1).

(** The handler of POST /api/process_notes. [body] is what
    [request.get_json()] returned, [JNull] standing for [None]; the
    result is the reply, or the exception that leaves the handler. *)
Definition process_notes (client : provider) (body : json) (w : world)
  : exn response * world :=
  match request_prompt body with
  | Raise e => (Raise e, w)
  | Ok prompt =>
      let '(reply, w1) := generate_content client prompt w in
      match (text ← reply; parsed ← parse_reply text; mret (jsonify parsed)) with
      | Ok resp => (Ok resp, w1)
      | Raise err_text =>
          let '(resp, w2) := on_error prompt err_text w1 in (Ok resp, w2)
      end
  end.

(** The handler of GET / and GET /<path:path>, applied to the path the
    router hands it. *)
Definition serve_react (path : string) (w : world) : response :=
  let build_dir := static_folder in
  if negb (String.eqb path "") && Os.path_exists (Os.path_join build_dir path) w
  then send_from_directory build_dir path
  else if Os.path_exists (Os.path_join build_dir "index.html") w
  then send_from_directory build_dir "index.html"
  else jsonify (JObj [("status", JStr "Backend running. Frontend build not found.")]).

End App.

(** ** A reference interpreter for the two library functions

    [Ref.loads] follows CPython's [json] scanner on a whole document and
    [Ref.float_repr] prints a binary64 datum with the fewest digits that
    read back as it. The interpreter's resource limits (recursion depth,
    the digit limit of [int]) are not part of them. *)

Module Ref.

Definition prec : Z := 53.
Definition emax : Z := 1024.

(** The binary64 datum nearest to [(-1)^neg * m * 10^e]. *)
Definition float_of_decimal (neg : bool) (m e : Z) : spec_float :=
  match m with
  | Zpos p =>
      if 0 <=? e then binary_normalize prec emax (if neg then - (m * 10 ^ e) else m * 10 ^ e) 0 neg
      else match 10 ^ (- e) with
           | Zpos q => SFdiv prec emax (S754_finite neg p 0) (S754_finite false q 0)
           | _ => S754_nan
           end
  | _ => S754_zero neg
  end.

Definition is_ws (c : ascii) : bool :=
  let n := Str.code c in ((n =? 32) || (n =? 9) || (n =? 10) || (n =? 13))%nat.

Fixpoint skip_ws (s : string) : string :=
  match s with
  | String c r => if is_ws c then skip_ws r else s
  | EmptyString => s
  end.

Definition hex_value (c : ascii) : option Z :=
  let n := Z.of_nat (Str.code c) in
  if (48 <=? n) && (n <=? 57) then Some (n - 48)
  else if (97 <=? n) && (n <=? 102) then Some (n - 87)
  else if (65 <=? n) && (n <=? 70) then Some (n - 55)
  else None.

(** Four hexadecimal digits after a backslash and a [u]. *)
Definition hex4 (s : string) : option (Z * string) :=
  match s with
  | String a (String b (String c (String d r))) =>
      match hex_value a, hex_value b, hex_value c, hex_value d with
      | Some x, Some y, Some z, Some t => Some (((x * 16 + y) * 16 + z) * 16 + t, r)
      | _, _, _, _ => None
      end
  | _ => None
  end.

Definition byte (n : Z) : ascii := ascii_of_nat (Z.to_nat n).

(** UTF-8 bytes of a code point. *)
Definition utf8 (cp : Z) : string :=
  if cp <? 128 then String (byte cp) ""
  else if cp <? 2048 then
    String (byte (192 + cp / 64)) (String (byte (128 + cp mod 64)) "")
  else if cp <? 65536 then
    String (byte (224 + cp / 4096))
      (String (byte (128 + (cp / 64) mod 64)) (String (byte (128 + cp mod 64)) ""))
  else
    String (byte (240 + cp / 262144))
      (String (byte (128 + (cp / 4096) mod 64))
         (String (byte (128 + (cp / 64) mod 64)) (String (byte (128 + cp mod 64)) ""))).

(** The characters of a string literal up to its closing quote; [acc]
    holds the decoded text in reverse. *)
Fixpoint scanstring (fuel : nat) (s acc : string) : option (string * string) :=
  match fuel with
  | O => None
  | S fuel' =>
      match s with
      | EmptyString => None
      | String c r =>
          if Ascii.eqb c "034"%char then Some (String.rev acc, r)
          else if Ascii.eqb c "\"%char then
            match r with
            | String e r' =>
                let simple (x : ascii) := scanstring fuel' r' (String x acc) in
                if Ascii.eqb e "034"%char then simple "034"%char
                else if Ascii.eqb e "\"%char then simple "\"%char
                else if Ascii.eqb e "/"%char then simple "/"%char
                else if Ascii.eqb e "b"%char then simple "008"%char
                else if Ascii.eqb e "f"%char then simple "012"%char
                else if Ascii.eqb e "n"%char then simple "010"%char
                else if Ascii.eqb e "r"%char then simple "013"%char
                else if Ascii.eqb e "t"%char then simple "009"%char
                else if Ascii.eqb e "u"%char then
                  match hex4 r' with
                  | Some (uni, r'') =>
                      let single := scanstring fuel' r'' (String.rev_app (utf8 uni) acc) in
                      if (55296 <=? uni) && (uni <=? 56319) then
                        match r'' with
                        | String "\"%char (String "u"%char r3) =>
                            match hex4 r3 with
                            | Some (uni2, r4) =>
                                if (56320 <=? uni2) && (uni2 <=? 57343) then
                                  scanstring fuel' r4
                                    (String.rev_app
                                       (utf8 (65536 + (uni - 55296) * 1024 + (uni2 - 56320)))
                                       acc)
                                else single
                            | None => None
                            end
                        | _ => single
                        end
                      else single
                  | None => None
                  end
                else None
            | EmptyString => None
            end
          else if (Str.code c <? 32)%nat then None
          else scanstring fuel' r (String c acc)
      end
  end.

Fixpoint digits (s : string) (acc : Z) (count : Z) : Z * Z * string :=
  match s with
  | String c r =>
      if Str.is_digit c then digits r (acc * 10 + Z.of_nat (Str.code c) - 48) (count + 1)
      else (acc, count, s)
  | EmptyString => (acc, count, s)
  end.

(** The integer part of a number: [0] or a digit string without a
    leading zero. *)
Definition int_part (s : string) : option (Z * string) :=
  match s with
  | String c r =>
      if Ascii.eqb c "0"%char then Some (0, r)
      else if Str.is_digit c then let '(n, _, r') := digits s 0 0 in Some (n, r')
      else None
  | EmptyString => None
  end.

(** The optional fraction: its digits appended to [m], and how many. *)
Definition frac_part (m : Z) (s : string) : option (Z * Z * string) :=
  match s with
  | String "."%char r =>
      let '(m', count, r') := digits r m 0 in
      if 0 <? count then Some (m', count, r') else None
  | _ => None
  end.

Definition exp_part (s : string) : option (Z * string) :=
  match s with
  | String c r =>
      if Ascii.eqb c "e"%char || Ascii.eqb c "E"%char then
        let '(neg, r1) :=
          match r with
          | String "-"%char r1 => (true, r1)
          | String "+"%char r1 => (false, r1)
          | _ => (false, r)
          end in
        let '(e, count, r2) := digits r1 0 0 in
        if 0 <? count then Some (if neg then - e else e, r2) else None
      else None
  | EmptyString => None
  end.

Definition number (s : string) : option (json * string) :=
  let '(neg, s1) :=
    match s with
    | String "-"%char r => (true, r)
    | _ => (false, s)
    end in
  match int_part s1 with
  | None => None
  | Some (n, s2) =>
      let '(m, fcount, s3, has_frac) :=
        match frac_part n s2 with
        | Some (m, count, s3) => (m, count, s3, true)
        | None => (n, 0, s2, false)
        end in
      match exp_part s3 with
      | Some (e, s4) => Some (JFloat (float_of_decimal neg m (e - fcount)), s4)
      | None =>
          if has_frac then Some (JFloat (float_of_decimal neg m (- fcount)), s3)
          else Some (JInt (if neg then - n else n), s3)
      end
  end.

(** [s] with the prefix [word] removed. *)
Fixpoint after (word s : string) : option string :=
  match word, s with
  | EmptyString, _ => Some s
  | String a w, String b r => if Ascii.eqb a b then after w r else None
  | String _ _, EmptyString => None
  end.

Definition constant (s : string) : option (json * string) :=
  match after "NaN" s with
  | Some r => Some (JFloat S754_nan, r)
  | None =>
      match after "Infinity" s with
      | Some r => Some (JFloat (S754_infinity false), r)
      | None =>
          match after "-Infinity" s with
          | Some r => Some (JFloat (S754_infinity true), r)
          | None => None
          end
      end
  end.

Definition literal (s : string) : option (json * string) :=
  match after "null" s with
  | Some r => Some (JNull, r)
  | None =>
      match after "true" s with
      | Some r => Some (JBool true, r)
      | None =>
          match after "false" s with
          | Some r => Some (JBool false, r)
          | None =>
              match number s with
              | Some res => Some res
              | None => constant s
              end
          end
      end
  end.

(** One value at the head of [s], and what follows it. *)
Fixpoint scan_once (fuel : nat) (s : string) : option (json * string) :=
  match fuel with
  | O => None
  | S fuel' =>
      match s with
      | String "034"%char r =>
          match scanstring (S (String.length r)) r "" with
          | Some (text, r') => Some (JStr text, r')
          | None => None
          end
      | String "{"%char r =>
          match skip_ws r with
          | String "}"%char r' => Some (JObj [], r')
          | String "034"%char r' => members fuel' r' []
          | _ => None
          end
      | String "["%char r =>
          match skip_ws r with
          | String "]"%char r' => Some (JArr [], r')
          | r' => elements fuel' r' []
          end
      | _ => literal s
      end
  end
with elements (fuel : nat) (s : string) (acc : list json) : option (json * string) :=
  match fuel with
  | O => None
  | S fuel' =>
      match scan_once fuel' s with
      | Some (v, r) =>
          match skip_ws r with
          | String "]"%char r' => Some (JArr (List.rev (v :: acc)), r')
          | String ","%char r' => elements fuel' (skip_ws r') (v :: acc)
          | _ => None
          end
      | None => None
      end
  end
with members (fuel : nat) (s : string) (acc : dict) : option (json * string) :=
  match fuel with
  | O => None
  | S fuel' =>
      match scanstring (S (String.length s)) s "" with
      | Some (key, r) =>
          match skip_ws r with
          | String ":"%char r1 =>
              match scan_once fuel' (skip_ws r1) with
              | Some (v, r2) =>
                  let acc' := Py.setitem acc key v in
                  match skip_ws r2 with
                  | String "}"%char r3 => Some (JObj acc', r3)
                  | String ","%char r3 =>
                      match skip_ws r3 with
                      | String "034"%char r4 => members fuel' r4 acc'
                      | _ => None
                      end
                  | _ => None
                  end
              | None => None
              end
          | _ => None
          end
      | None => None
      end
  end.

(** [x < 10^k] for the positive rational [x = num / den]. *)
Definition below_pow10 (num den k : Z) : bool :=
  if 0 <=? k then num <? den * 10 ^ k else num * 10 ^ (- k) <? den.

Fixpoint find_decpt (fuel : nat) (num den k : Z) : Z :=
  match fuel with
  | O => k
  | S fuel' => if below_pow10 num den k then k else find_decpt fuel' num den (k + 1)
  end.

(** The [n]-digit decimals around [num / den], whose first digit has
    weight [10^(decpt-1)]: the one below, and whether the upper one is
    at least as near. *)
Definition bracket (num den decpt : Z) (n : Z) : Z * bool :=
  let s := decpt - n in
  let '(a, b) := if 0 <=? s then (num, den * 10 ^ s) else (num * 10 ^ (- s), den) in
  let lo := a / b in
  let r := a mod b in
  (lo, if 2 * r =? b then Z.odd lo else b <? 2 * r).

(** The fewest digits that read back as [x], nearest first. *)
Fixpoint shortest (fuel : nat) (x : spec_float) (num den decpt n : Z) : Z * Z :=
  match fuel with
  | O => (0, n)
  | S fuel' =>
      let '(lo, upper_first) := bracket num den decpt n in
      let back (d : Z) := SFeqb (float_of_decimal false d (decpt - n)) x in
      let first := if upper_first then lo + 1 else lo in
      let other := if upper_first then lo else lo + 1 in
      if back first then (first, n)
      else if back other then (other, n)
      else shortest fuel' x num den decpt (n + 1)
  end.

Fixpoint strip_zeros (fuel : nat) (d k : Z) : Z * Z :=
  match fuel with
  | O => (d, k)
  | S fuel' => if (d mod 10 =? 0) && negb (d =? 0)
               then strip_zeros fuel' (d / 10) (k + 1) else (d, k)
  end.

Definition zeros (n : Z) : string :=
  String.string_of_list_ascii (List.repeat "0"%char (Z.to_nat n)).

Fixpoint take (n : nat) (s : string) : string :=
  match n, s with
  | S n', String c r => String c (take n' r)
  | _, _ => ""
  end.

Fixpoint drop (n : nat) (s : string) : string :=
  match n, s with
  | S n', String _ r => drop n' r
  | _, _ => s
  end.

(** The digits [ds] with the decimal point after the first [decpt] of
    them, in the notation [repr] picks. *)
Definition layout (ds : string) (decpt : Z) : string :=
  let n := Z.of_nat (String.length ds) in
  if (decpt <=? -4) || (16 <? decpt) then
    let e := decpt - 1 in
    let mantissa := if n =? 1 then ds else take 1 ds +:+ "." +:+ drop 1 ds in
    let digits := Str.decimal (Z.abs e) in
    mantissa +:+ "e" +:+ (if e <? 0 then "-" else "+")
      +:+ (if Z.abs e <? 10 then "0" else "") +:+ digits
  else if decpt <=? 0 then "0." +:+ zeros (- decpt) +:+ ds
  else if n <=? decpt then ds +:+ zeros (decpt - n) +:+ ".0"
  else take (Z.to_nat decpt) ds +:+ "." +:+ drop (Z.to_nat decpt) ds.

Definition float_repr (x : spec_float) : string :=
  match x with
  | S754_nan => "nan"
  | S754_infinity neg => if neg then "-inf" else "inf"
  | S754_zero neg => if neg then "-0.0" else "0.0"
  | S754_finite neg m e =>
      let '(num, den) := if 0 <=? e then (Zpos m * 2 ^ e, 1) else (Zpos m, 2 ^ (- e)) in
      let guess := ((Z.log2 (Zpos m) + e) * 30103) / 100000 - 1 in
      let decpt := find_decpt 4 num den guess in
      let '(d, n) := shortest 17 (S754_finite false m e) num den decpt 1 in
      let '(d', shift) := strip_zeros 20 d 0 in
      let ds := Str.decimal d' in
      (if neg then "-" else "")
        +:+ layout ds (decpt - n + shift + Z.of_nat (String.length ds))
  end.

(** The code points above ASCII that [str.isprintable] rejects, as
    ranges, in Unicode 14.0.0, the edition of CPython 3.11. *)
Definition not_printable : list (Z * Z) :=
  [ (128, 160); (173, 173); (888, 889); (896, 899); (907, 907); (909, 909); (930, 930);
    (1328, 1328); (1367, 1368); (1419, 1420); (1424, 1424); (1480, 1487); (1515, 1518);
    (1525, 1541); (1564, 1564); (1757, 1757); (1806, 1807); (1867, 1868); (1970, 1983);
    (2043, 2044); (2094, 2095); (2111, 2111); (2140, 2141); (2143, 2143); (2155, 2159);
    (2191, 2199); (2274, 2274); (2436, 2436); (2445, 2446); (2449, 2450); (2473, 2473);
    (2481, 2481); (2483, 2485); (2490, 2491); (2501, 2502); (2505, 2506); (2511, 2518);
    (2520, 2523); (2526, 2526); (2532, 2533); (2559, 2560); (2564, 2564); (2571, 2574);
    (2577, 2578); (2601, 2601); (2609, 2609); (2612, 2612); (2615, 2615); (2618, 2619);
    (2621, 2621); (2627, 2630); (2633, 2634); (2638, 2640); (2642, 2648); (2653, 2653);
    (2655, 2661); (2679, 2688); (2692, 2692); (2702, 2702); (2706, 2706); (2729, 2729);
    (2737, 2737); (2740, 2740); (2746, 2747); (2758, 2758); (2762, 2762); (2766, 2767);
    (2769, 2783); (2788, 2789); (2802, 2808); (2816, 2816); (2820, 2820); (2829, 2830);
    (2833, 2834); (2857, 2857); (2865, 2865); (2868, 2868); (2874, 2875); (2885, 2886);
    (2889, 2890); (2894, 2900); (2904, 2907); (2910, 2910); (2916, 2917); (2936, 2945);
    (2948, 2948); (2955, 2957); (2961, 2961); (2966, 2968); (2971, 2971); (2973, 2973);
    (2976, 2978); (2981, 2983); (2987, 2989); (3002, 3005); (3011, 3013); (3017, 3017);
    (3022, 3023); (3025, 3030); (3032, 3045); (3067, 3071); (3085, 3085); (3089, 3089);
    (3113, 3113); (3130, 3131); (3141, 3141); (3145, 3145); (3150, 3156); (3159, 3159);
    (3163, 3164); (3166, 3167); (3172, 3173); (3184, 3190); (3213, 3213); (3217, 3217);
    (3241, 3241); (3252, 3252); (3258, 3259); (3269, 3269); (3273, 3273); (3278, 3284);
    (3287, 3292); (3295, 3295); (3300, 3301); (3312, 3312); (3315, 3327); (3341, 3341);
    (3345, 3345); (3397, 3397); (3401, 3401); (3408, 3411); (3428, 3429); (3456, 3456);
    (3460, 3460); (3479, 3481); (3506, 3506); (3516, 3516); (3518, 3519); (3527, 3529);
    (3531, 3534); (3541, 3541); (3543, 3543); (3552, 3557); (3568, 3569); (3573, 3584);
    (3643, 3646); (3676, 3712); (3715, 3715); (3717, 3717); (3723, 3723); (3748, 3748);
    (3750, 3750); (3774, 3775); (3781, 3781); (3783, 3783); (3790, 3791); (3802, 3803);
    (3808, 3839); (3912, 3912); (3949, 3952); (3992, 3992); (4029, 4029); (4045, 4045);
    (4059, 4095); (4294, 4294); (4296, 4300); (4302, 4303); (4681, 4681); (4686, 4687);
    (4695, 4695); (4697, 4697); (4702, 4703); (4745, 4745); (4750, 4751); (4785, 4785);
    (4790, 4791); (4799, 4799); (4801, 4801); (4806, 4807); (4823, 4823); (4881, 4881);
    (4886, 4887); (4955, 4956); (4989, 4991); (5018, 5023); (5110, 5111); (5118, 5119);
    (5760, 5760); (5789, 5791); (5881, 5887); (5910, 5918); (5943, 5951); (5972, 5983);
    (5997, 5997); (6001, 6001); (6004, 6015); (6110, 6111); (6122, 6127); (6138, 6143);
    (6158, 6158); (6170, 6175); (6265, 6271); (6315, 6319); (6390, 6399); (6431, 6431);
    (6444, 6447); (6460, 6463); (6465, 6467); (6510, 6511); (6517, 6527); (6572, 6575);
    (6602, 6607); (6619, 6621); (6684, 6685); (6751, 6751); (6781, 6782); (6794, 6799);
    (6810, 6815); (6830, 6831); (6863, 6911); (6989, 6991); (7039, 7039); (7156, 7163);
    (7224, 7226); (7242, 7244); (7305, 7311); (7355, 7356); (7368, 7375); (7419, 7423);
    (7958, 7959); (7966, 7967); (8006, 8007); (8014, 8015); (8024, 8024); (8026, 8026);
    (8028, 8028); (8030, 8030); (8062, 8063); (8117, 8117); (8133, 8133); (8148, 8149);
    (8156, 8156); (8176, 8177); (8181, 8181); (8191, 8207); (8232, 8239); (8287, 8303);
    (8306, 8307); (8335, 8335); (8349, 8351); (8385, 8399); (8433, 8447); (8588, 8591);
    (9255, 9279); (9291, 9311); (11124, 11125); (11158, 11158); (11508, 11512); (11558, 11558);
    (11560, 11564); (11566, 11567); (11624, 11630); (11633, 11646); (11671, 11679);
    (11687, 11687); (11695, 11695); (11703, 11703); (11711, 11711); (11719, 11719);
    (11727, 11727); (11735, 11735); (11743, 11743); (11870, 11903); (11930, 11930);
    (12020, 12031); (12246, 12271); (12284, 12288); (12352, 12352); (12439, 12440);
    (12544, 12548); (12592, 12592); (12687, 12687); (12772, 12783); (12831, 12831);
    (42125, 42127); (42183, 42191); (42540, 42559); (42744, 42751); (42955, 42959);
    (42962, 42962); (42964, 42964); (42970, 42993); (43053, 43055); (43066, 43071);
    (43128, 43135); (43206, 43213); (43226, 43231); (43348, 43358); (43389, 43391);
    (43470, 43470); (43482, 43485); (43519, 43519); (43575, 43583); (43598, 43599);
    (43610, 43611); (43715, 43738); (43767, 43776); (43783, 43784); (43791, 43792);
    (43799, 43807); (43815, 43815); (43823, 43823); (43884, 43887); (44014, 44015);
    (44026, 44031); (55204, 55215); (55239, 55242); (55292, 63743); (64110, 64111);
    (64218, 64255); (64263, 64274); (64280, 64284); (64311, 64311); (64317, 64317);
    (64319, 64319); (64322, 64322); (64325, 64325); (64451, 64466); (64912, 64913);
    (64968, 64974); (64976, 65007); (65050, 65055); (65107, 65107); (65127, 65127);
    (65132, 65135); (65141, 65141); (65277, 65280); (65471, 65473); (65480, 65481);
    (65488, 65489); (65496, 65497); (65501, 65503); (65511, 65511); (65519, 65531);
    (65534, 65535); (65548, 65548); (65575, 65575); (65595, 65595); (65598, 65598);
    (65614, 65615); (65630, 65663); (65787, 65791); (65795, 65798); (65844, 65846);
    (65935, 65935); (65949, 65951); (65953, 65999); (66046, 66175); (66205, 66207);
    (66257, 66271); (66300, 66303); (66340, 66348); (66379, 66383); (66427, 66431);
    (66462, 66462); (66500, 66503); (66518, 66559); (66718, 66719); (66730, 66735);
    (66772, 66775); (66812, 66815); (66856, 66863); (66916, 66926); (66939, 66939);
    (66955, 66955); (66963, 66963); (66966, 66966); (66978, 66978); (66994, 66994);
    (67002, 67002); (67005, 67071); (67383, 67391); (67414, 67423); (67432, 67455);
    (67462, 67462); (67505, 67505); (67515, 67583); (67590, 67591); (67593, 67593);
    (67638, 67638); (67641, 67643); (67645, 67646); (67670, 67670); (67743, 67750);
    (67760, 67807); (67827, 67827); (67830, 67834); (67868, 67870); (67898, 67902);
    (67904, 67967); (68024, 68027); (68048, 68049); (68100, 68100); (68103, 68107);
    (68116, 68116); (68120, 68120); (68150, 68151); (68155, 68158); (68169, 68175);
    (68185, 68191); (68256, 68287); (68327, 68330); (68343, 68351); (68406, 68408);
    (68438, 68439); (68467, 68471); (68498, 68504); (68509, 68520); (68528, 68607);
    (68681, 68735); (68787, 68799); (68851, 68857); (68904, 68911); (68922, 69215);
    (69247, 69247); (69290, 69290); (69294, 69295); (69298, 69375); (69416, 69423);
    (69466, 69487); (69514, 69551); (69580, 69599); (69623, 69631); (69710, 69713);
    (69750, 69758); (69821, 69821); (69827, 69839); (69865, 69871); (69882, 69887);
    (69941, 69941); (69960, 69967); (70007, 70015); (70112, 70112); (70133, 70143);
    (70162, 70162); (70207, 70271); (70279, 70279); (70281, 70281); (70286, 70286);
    (70302, 70302); (70314, 70319); (70379, 70383); (70394, 70399); (70404, 70404);
    (70413, 70414); (70417, 70418); (70441, 70441); (70449, 70449); (70452, 70452);
    (70458, 70458); (70469, 70470); (70473, 70474); (70478, 70479); (70481, 70486);
    (70488, 70492); (70500, 70501); (70509, 70511); (70517, 70655); (70748, 70748);
    (70754, 70783); (70856, 70863); (70874, 71039); (71094, 71095); (71134, 71167);
    (71237, 71247); (71258, 71263); (71277, 71295); (71354, 71359); (71370, 71423);
    (71451, 71452); (71468, 71471); (71495, 71679); (71740, 71839); (71923, 71934);
    (71943, 71944); (71946, 71947); (71956, 71956); (71959, 71959); (71990, 71990);
    (71993, 71994); (72007, 72015); (72026, 72095); (72104, 72105); (72152, 72153);
    (72165, 72191); (72264, 72271); (72355, 72367); (72441, 72703); (72713, 72713);
    (72759, 72759); (72774, 72783); (72813, 72815); (72848, 72849); (72872, 72872);
    (72887, 72959); (72967, 72967); (72970, 72970); (73015, 73017); (73019, 73019);
    (73022, 73022); (73032, 73039); (73050, 73055); (73062, 73062); (73065, 73065);
    (73103, 73103); (73106, 73106); (73113, 73119); (73130, 73439); (73465, 73647);
    (73649, 73663); (73714, 73726); (74650, 74751); (74863, 74863); (74869, 74879);
    (75076, 77711); (77811, 77823); (78895, 82943); (83527, 92159); (92729, 92735);
    (92767, 92767); (92778, 92781); (92863, 92863); (92874, 92879); (92910, 92911);
    (92918, 92927); (92998, 93007); (93018, 93018); (93026, 93026); (93048, 93052);
    (93072, 93759); (93851, 93951); (94027, 94030); (94088, 94094); (94112, 94175);
    (94181, 94191); (94194, 94207); (100344, 100351); (101590, 101631); (101641, 110575);
    (110580, 110580); (110588, 110588); (110591, 110591); (110883, 110927); (110931, 110947);
    (110952, 110959); (111356, 113663); (113771, 113775); (113789, 113791); (113801, 113807);
    (113818, 113819); (113824, 118527); (118574, 118575); (118599, 118607); (118724, 118783);
    (119030, 119039); (119079, 119080); (119155, 119162); (119275, 119295); (119366, 119519);
    (119540, 119551); (119639, 119647); (119673, 119807); (119893, 119893); (119965, 119965);
    (119968, 119969); (119971, 119972); (119975, 119976); (119981, 119981); (119994, 119994);
    (119996, 119996); (120004, 120004); (120070, 120070); (120075, 120076); (120085, 120085);
    (120093, 120093); (120122, 120122); (120127, 120127); (120133, 120133); (120135, 120137);
    (120145, 120145); (120486, 120487); (120780, 120781); (121484, 121498); (121504, 121504);
    (121520, 122623); (122655, 122879); (122887, 122887); (122905, 122906); (122914, 122914);
    (122917, 122917); (122923, 123135); (123181, 123183); (123198, 123199); (123210, 123213);
    (123216, 123535); (123567, 123583); (123642, 123646); (123648, 124895); (124903, 124903);
    (124908, 124908); (124911, 124911); (124927, 124927); (125125, 125126); (125143, 125183);
    (125260, 125263); (125274, 125277); (125280, 126064); (126133, 126208); (126270, 126463);
    (126468, 126468); (126496, 126496); (126499, 126499); (126501, 126502); (126504, 126504);
    (126515, 126515); (126520, 126520); (126522, 126522); (126524, 126529); (126531, 126534);
    (126536, 126536); (126538, 126538); (126540, 126540); (126544, 126544); (126547, 126547);
    (126549, 126550); (126552, 126552); (126554, 126554); (126556, 126556); (126558, 126558);
    (126560, 126560); (126563, 126563); (126565, 126566); (126571, 126571); (126579, 126579);
    (126584, 126584); (126589, 126589); (126591, 126591); (126602, 126602); (126620, 126624);
    (126628, 126628); (126634, 126634); (126652, 126703); (126706, 126975); (127020, 127023);
    (127124, 127135); (127151, 127152); (127168, 127168); (127184, 127184); (127222, 127231);
    (127406, 127461); (127491, 127503); (127548, 127551); (127561, 127567); (127570, 127583);
    (127590, 127743); (128728, 128732); (128749, 128751); (128765, 128767); (128884, 128895);
    (128985, 128991); (129004, 129007); (129009, 129023); (129036, 129039); (129096, 129103);
    (129114, 129119); (129160, 129167); (129198, 129199); (129202, 129279); (129620, 129631);
    (129646, 129647); (129653, 129655); (129661, 129663); (129671, 129679); (129709, 129711);
    (129723, 129727); (129734, 129743); (129754, 129759); (129768, 129775); (129783, 129791);
    (129939, 129939); (129995, 130031); (130042, 131071); (173792, 173823); (177977, 177983);
    (178206, 178207); (183970, 183983); (191457, 194559); (195102, 196607); (201547, 917759);
    (918000, 1114111) ].

Definition printable (cp : Z) : bool :=
  negb (existsb (fun r => (fst r <=? cp) && (cp <=? snd r)) not_printable).

(** [json.loads(s)]: one value between optional white space. *)
Definition loads (s : string) : option json :=
  match scan_once (S (String.length s)) (skip_ws s) with
  | Some (v, r) =>
      match skip_ws r with
      | EmptyString => Some v
      | String _ _ => None
      end
  | None => None
  end.

End Ref.

(** ** The vocabulary of the specification *)

Module Spec.

(** [needle] occurs in [hay]. *)
Definition substring (needle hay : string) : Prop :=
  ∃ pre post, hay = pre +:+ needle +:+ post.

(** [needle], a lower-case word, occurs in [hay] in some letter case. *)
Definition substring_nocase (needle hay : string) : Prop :=
  ∃ pre mid post, hay = pre +:+ mid +:+ post ∧ Str.lower mid = needle.

(** The markers of a transient provider failure. *)
Definition transient (err_text : string) : Prop :=
  substring "503" err_text
  ∨ substring_nocase "unavailable" err_text
  ∨ substring_nocase "model is overloaded" err_text.

Definition is_str (v : json) : bool :=
  match v with
  | JStr _ => true
  | _ => false
  end.

Definition is_str_list (v : json) : bool :=
  match v with
  | JArr items => forallb is_str items
  | _ => false
  end.

Definition field (check : json -> bool) (d : dict) (key : string) : bool :=
  match Py.lookup d key with
  | Some v => check v
  | None => false
  end.

(** NoteResponse: an object whose [expandedNotes] is a string and whose
    [important], [explain], [tasks] and [meeting] are lists of strings. *)
Definition note_response (v : json) : bool :=
  match v with
  | JObj d =>
      field is_str d "expandedNotes" && field is_str_list d "important"
      && field is_str_list d "explain" && field is_str_list d "tasks"
      && field is_str_list d "meeting"
  | _ => false
  end.

(** One white-space character of [str.strip], as its UTF-8 bytes. *)
Inductive space : string -> Prop :=
| space_1 a : Str.space1 a = true -> space (String a "")
| space_2 a b : Str.space2 a b = true -> space (String a (String b ""))
| space_3 a b c : Str.space3 a b c = true -> space (String a (String b (String c ""))).

(** A run of white space. *)
Inductive blank : string -> Prop :=
| blank_nil : blank ""
| blank_cons ws s : space ws -> blank s -> blank (ws +:+ s).

(** YYYYMMDDTHHMMSSZ. *)
Definition is_stamp (s : string) : bool :=
  match String.list_ascii_of_string s with
  | [y1; y2; y3; y4; m1; m2; d1; d2; t; h1; h2; n1; n2; s1; s2; z] =>
      forallb Str.is_digit [y1; y2; y3; y4; m1; m2; d1; d2; h1; h2; n1; n2; s1; s2]
      && Ascii.eqb t "T"%char && Ascii.eqb z "Z"%char
  | _ => false
  end.

(** The second that a YYYYMMDDTHHMMSSZ stamp names. *)
Definition digit_value (c : ascii) : Z := Z.of_nat (Str.code c) - 48.

Definition number (digits : list ascii) : Z :=
  fold_left (fun n c => n * 10 + digit_value c) digits 0.

Definition read_stamp (s : string) : option datetime :=
  match String.list_ascii_of_string s with
  | [y1; y2; y3; y4; m1; m2; d1; d2; _; h1; h2; n1; n2; s1; s2; _] =>
      if is_stamp s
      then Some {| year := number [y1; y2; y3; y4]; month := number [m1; m2];
                   day := number [d1; d2]; hour := number [h1; h2];
                   minute := number [n1; n2]; second := number [s1; s2] |}
      else None
  | _ => None
  end.

(** A date and time that [datetime.utcnow()] can return, from year
    1000 on. *)
Definition utc_datetime (dt : datetime) : Prop :=
  1000 <= year dt <= 9999 ∧ 1 <= month dt <= 12 ∧ 1 <= day dt <= 31
  ∧ 0 <= hour dt < 24 ∧ 0 <= minute dt < 60 ∧ 0 <= second dt < 60.

End Spec.

(** ** Sample surroundings for the worked examples *)

Module Sample.

Definition here : string := "/srv/notes".
Definition static_folder : string := "/srv/notes/static".

Definition noon : datetime :=
  {| year := 2025; month := 3; day := 9; hour := 12; minute := 5; second := 7 |}.

(** An empty disk that accepts every write. *)
Definition idle : world :=
  {| files := ∅; dirs := {[ "/srv/notes/failed_prompts" ]}; write_errors := ∅;
     clock := noon; trace := [] |}.

Definition stamped : string := "/srv/notes/failed_prompts/failed_prompt_20250309T120507Z.txt".

(** The same disk with the failed-prompts directory read-only. *)
Definition read_only : world :=
  {| files := ∅; dirs := {[ "/srv/notes/failed_prompts" ]};
     write_errors := {[ stamped := OpenRaises "[Errno 13] Permission denied" ]};
     clock := noon; trace := [] |}.

(** A disk holding a built frontend. *)
Definition built : world :=
  {| files := {[ "/srv/notes/static/index.html" := "<html></html>";
                 "/srv/notes/static/main.js" := "void 0" ]};
     dirs := {[ "/srv/notes/static" ]}; write_errors := ∅;
     clock := noon; trace := [] |}.

(** The build with a directory of assets beside its files. *)
Definition with_assets : world :=
  {| files := files built; dirs := {[ "/srv/notes/static"; "/srv/notes/static/assets" ]};
     write_errors := ∅; clock := noon; trace := [] |}.

Definition replies (text : string) : provider := fun _ => Ok (Some text).
(** A provider whose response carries no text. *)
Definition silent : provider := fun _ => Ok None.
Definition fails (msg : string) : provider := fun _ => Raise msg.

(** A reply that follows the schema of the prompt. *)
Definition good_text : string :=
  "{" +:+ quoted "expandedNotes" +:+ ": " +:+ quoted "- buy milk" +:+ ", "
  +:+ quoted "important" +:+ ": [], " +:+ quoted "explain" +:+ ": [], "
  +:+ quoted "tasks" +:+ ": [" +:+ quoted "buy milk" +:+ "], "
  +:+ quoted "meeting" +:+ ": []}".

Definition good_json : json :=
  JObj [ ("expandedNotes", JStr "- buy milk"); ("important", JArr []);
         ("explain", JArr []); ("tasks", JArr [JStr "buy milk"]);
         ("meeting", JArr []) ].

Definition process (client : provider) (body : json) (w : world) : exn response * world :=
  process_notes Ref.loads Ref.float_repr Ref.printable here client body w.

(** The prompt of a body without fields. *)
Definition default_prompt : string :=
  build_prompt Ref.float_repr Ref.printable (JStr "") (JStr "General") (JStr "").

(** A body whose topic is the lone surrogate U+D800. *)
Definition surrogate_topic : json := JObj [("topic", JStr (Ref.utf8 55296))].

(** A body with its notes only, and one whose tone is null. *)
Definition notes_only : json := JObj [("notes", JStr "buy milk??")].
Definition null_tone : json := JObj [("topic", JStr "shopping"); ("tone", JNull)].

End Sample.

(** * Properties *)

(** ** Strings *)

Lemma app_cons a s t : String a s +:+ t = String a (s +:+ t).
Proof. reflexivity. Qed.

Lemma app_nil_l t : "" +:+ t = t.
Proof. reflexivity. Qed.

Lemma app_nil_r s : s +:+ "" = s.
Proof. induction s as [|a s IH]; [reflexivity|]. by rewrite app_cons, IH. Qed.

Lemma app_assoc_str s t u : (s +:+ t) +:+ u = s +:+ (t +:+ u).
Proof. induction s as [|a s IH]; [reflexivity|]. by rewrite !app_cons, IH. Qed.

Lemma app_inv_head_str s t u : s +:+ t = s +:+ u -> t = u.
Proof.
  induction s as [|a s IH]; [done|].
  rewrite !app_cons. intros H. injection H as H. auto.
Qed.

Lemma rev_app_spec s t : String.rev_app s t = String.rev s +:+ t.
Proof.
  unfold String.rev. revert t.
  induction s as [|a s IH]; intros t; [reflexivity|].
  cbn [String.rev_app]. rewrite (IH (String a t)), (IH (String a "")).
  by rewrite app_assoc_str.
Qed.

Lemma rev_cons a s : String.rev (String a s) = String.rev s +:+ String a "".
Proof. unfold String.rev at 1. cbn [String.rev_app]. apply rev_app_spec. Qed.

Lemma rev_app_distr_str s t : String.rev (s +:+ t) = String.rev t +:+ String.rev s.
Proof.
  induction s as [|a s IH].
  - rewrite app_nil_l. change (String.rev "") with "". by rewrite app_nil_r.
  - by rewrite app_cons, !rev_cons, IH, app_assoc_str.
Qed.

Lemma rev_involutive_str s : String.rev (String.rev s) = s.
Proof.
  induction s as [|a s IH]; [reflexivity|].
  by rewrite rev_cons, rev_app_distr_str, IH.
Qed.

Lemma prefix_true needle hay :
  String.prefix needle hay = true <-> ∃ post, hay = needle +:+ post.
Proof.
  revert hay. induction needle as [|a n IH]; intros hay.
  - split; [intros _; by exists hay | by destruct hay].
  - destruct hay as [|b h]; cbn [String.prefix].
    + split; [done | by intros [post H]].
    + destruct (ascii_dec a b) as [->|Hne].
      * rewrite IH. split; intros [post H]; exists post.
        -- by rewrite app_cons, <- H.
        -- rewrite app_cons in H. by injection H.
      * split; [done|]. intros [post H]. rewrite app_cons in H.
        injection H as H1 _. by destruct Hne.
Qed.

(** [needle in hay] holds exactly when [needle] occurs in [hay]. *)
Lemma contains_substring needle hay :
  Str.contains needle hay = true <-> Spec.substring needle hay.
Proof.
  unfold Spec.substring. induction hay as [|b h IH]; cbn [Str.contains].
  - rewrite orb_false_r, prefix_true. split.
    + intros [post H]. by exists "", post.
    + intros (pre & post & H). destruct pre; [by exists post|done].
  - rewrite orb_true_iff, prefix_true, IH. split.
    + intros [[post H]|(pre & post & H)].
      * by exists "", post.
      * exists (String b pre), post. by rewrite app_cons, <- H.
    + intros (pre & post & H). destruct pre as [|c pre].
      * left. by exists post.
      * right. rewrite app_cons in H. injection H as _ H. by exists pre, post.
Qed.

Lemma lower_app s t : Str.lower (s +:+ t) = Str.lower s +:+ Str.lower t.
Proof.
  induction s as [|a s IH]; [reflexivity|].
  rewrite app_cons. cbn [Str.lower]. by rewrite app_cons, IH.
Qed.

Lemma lower_split s x y :
  Str.lower s = x +:+ y -> ∃ x' y', s = x' +:+ y' ∧ Str.lower x' = x ∧ Str.lower y' = y.
Proof.
  revert s. induction x as [|a x IH]; intros s H.
  - by exists "", s.
  - destruct s as [|b s]; [done|].
    cbn [Str.lower] in H. rewrite app_cons in H. injection H as Hb H.
    destruct (IH _ H) as (x' & y' & -> & Hx & Hy).
    exists (String b x'), y'. cbn [Str.lower]. by rewrite Hb, Hx.
Qed.

(** Searching the lowered text finds the word in any letter case. *)
Lemma contains_lower needle hay :
  Str.contains needle (Str.lower hay) = true <-> Spec.substring_nocase needle hay.
Proof.
  rewrite contains_substring. unfold Spec.substring, Spec.substring_nocase. split.
  - intros (pre & post & H).
    destruct (lower_split _ _ _ H) as (pre' & rest & -> & Hpre & Hrest).
    destruct (lower_split _ _ _ Hrest) as (mid & post' & -> & Hmid & Hpost).
    by exists pre', mid, post'.
  - intros (pre & mid & post & -> & Hmid).
    exists (Str.lower pre), (Str.lower post). by rewrite !lower_app, Hmid.
Qed.

Lemma blank_one ws : Spec.space ws -> Spec.blank ws.
Proof.
  intros H. rewrite <- (app_nil_r ws). apply Spec.blank_cons; [done | constructor].
Qed.

Lemma blank_app x y : Spec.blank x -> Spec.blank y -> Spec.blank (x +:+ y).
Proof.
  induction 1 as [|ws s Hws Hs IH]; intros Hy; [done|].
  rewrite app_assoc_str. apply Spec.blank_cons; auto.
Qed.

(** What [skip_spaces] removes is white space, read in its direction. *)
Lemma skip_spaces_removed (back : bool) (n : nat) :
  ∀ s, (String.length s < n)%nat ->
    ∃ l, s = l +:+ Str.skip_spaces back s
         ∧ Spec.blank (if back then String.rev l else l).
Proof.
  assert (Hstep : ∀ ws l, Spec.space (if back then String.rev ws else ws) ->
            Spec.blank (if back then String.rev l else l) ->
            Spec.blank (if back then String.rev (ws +:+ l) else ws +:+ l)).
  { intros ws l Hws Hl. destruct back.
    - rewrite rev_app_distr_str. apply blank_app; [done | by apply blank_one].
    - by apply Spec.blank_cons. }
  assert (Hnil : Spec.blank (if back then String.rev "" else "")).
  { destruct back; constructor. }
  induction n as [|n IH]; intros s Hlen; [lia|].
  destruct s as [|a r1]; [by exists ""|].
  cbn [Str.skip_spaces]. destruct (Str.space1 a) eqn:H1.
  { destruct (IH r1) as (l & Hl & Hb); [cbn in Hlen; lia|].
    exists (String a "" +:+ l). split.
    - rewrite app_assoc_str, app_cons, app_nil_l. by rewrite <- Hl.
    - apply Hstep; [|done]. destruct back; by apply Spec.space_1. }
  destruct r1 as [|b r2]; [by exists ""|].
  destruct (if back then Str.space2 b a else Str.space2 a b) eqn:H2.
  { destruct (IH r2) as (l & Hl & Hb); [cbn in Hlen; lia|].
    exists (String a (String b "") +:+ l). split.
    - rewrite app_assoc_str, !app_cons, app_nil_l. by rewrite <- Hl.
    - apply Hstep; [|done]. destruct back; by apply Spec.space_2. }
  destruct r2 as [|c r3]; [by exists ""|].
  destruct (if back then Str.space3 c b a else Str.space3 a b c) eqn:H3.
  { destruct (IH r3) as (l & Hl & Hb); [cbn in Hlen; lia|].
    exists (String a (String b (String c "")) +:+ l). split.
    - rewrite app_assoc_str, !app_cons, app_nil_l. by rewrite <- Hl.
    - apply Hstep; [|done]. destruct back; by apply Spec.space_3. }
  by exists "".
Qed.

(** [strip] removes a run of white space at each end and nothing else. *)
Lemma strip_removed s :
  ∃ l r, s = l +:+ Str.strip s +:+ r ∧ Spec.blank l ∧ Spec.blank r.
Proof.
  destruct (skip_spaces_removed false (S (String.length s)) s) as (l & Hl & Hbl); [lia|].
  set (t := Str.lstrip s).
  destruct (skip_spaces_removed true (S (String.length (String.rev t))) (String.rev t))
    as (r & Hr & Hbr); [lia|].
  exists l, (String.rev r). split; [|done].
  unfold Str.strip, Str.rstrip. fold t.
  rewrite <- rev_app_distr_str, <- Hr, rev_involutive_str. exact Hl.
Qed.

(** What [skip_spaces] returns does not begin with white space. *)
Lemma skip_spaces_stops (back : bool) (n : nat) :
  ∀ s, (String.length s < n)%nat ->
    ∀ ws rest : string, Spec.space (if back then String.rev ws else ws) ->
      Str.skip_spaces back s ≠ ws +:+ rest.
Proof.
  assert (Hinv : ∀ ws, Spec.space (if back then String.rev ws else ws) ->
            (∃ a, ws = String a "" ∧ Str.space1 a = true)
            ∨ (∃ a b, ws = String a (String b "")
                      ∧ (if back then Str.space2 b a else Str.space2 a b) = true)
            ∨ (∃ a b c, ws = String a (String b (String c ""))
                        ∧ (if back then Str.space3 c b a else Str.space3 a b c) = true)).
  { intros ws H. destruct back.
    - rewrite <- (rev_involutive_str ws). inversion H as [a Ha Heq|a b Ha Heq|a b c Ha Heq].
      + left. by exists a.
      + right; left. by exists b, a.
      + right; right. by exists c, b, a.
    - inversion H as [a Ha Heq|a b Ha Heq|a b c Ha Heq]; eauto 10. }
  induction n as [|n IH]; intros s Hlen ws rest Hws; [lia|].
  destruct s as [|a r1].
  { cbn. destruct (Hinv ws Hws) as [(x & -> & _)|[(x & y & -> & _)|(x & y & z & -> & _)]]; done. }
  cbn [Str.skip_spaces]. destruct (Str.space1 a) eqn:H1.
  { apply IH; [cbn in Hlen; lia | done]. }
  destruct r1 as [|b r2].
  { destruct (Hinv ws Hws) as [(x & -> & Hx)|[(x & y & -> & _)|(x & y & z & -> & _)]];
      rewrite ?app_cons, ?app_nil_l; intros E; simplify_eq; congruence. }
  destruct (if back then Str.space2 b a else Str.space2 a b) eqn:H2.
  { apply IH; [cbn in Hlen; lia | done]. }
  destruct r2 as [|c r3].
  { destruct (Hinv ws Hws) as [(x & -> & Hx)|[(x & y & -> & Hxy)|(x & y & z & -> & _)]];
      rewrite ?app_cons, ?app_nil_l; intros E; simplify_eq; congruence. }
  destruct (if back then Str.space3 c b a else Str.space3 a b c) eqn:H3.
  { apply IH; [cbn in Hlen; lia | done]. }
  destruct (Hinv ws Hws) as [(x & -> & Hx)|[(x & y & -> & Hxy)|(x & y & z & -> & Hxyz)]];
    rewrite ?app_cons, ?app_nil_l; intros E; simplify_eq; congruence.
Qed.

(** The stripped text neither begins nor ends with white space. *)
Lemma strip_is_trimmed s ws rest :
  Spec.space ws -> Str.strip s ≠ ws +:+ rest ∧ Str.strip s ≠ rest +:+ ws.
Proof.
  intros Hws. set (t := Str.lstrip s). split; intros H.
  - destruct (skip_spaces_removed true (S (String.length (String.rev t))) (String.rev t))
      as (r & Hr & _); [lia|].
    apply (f_equal String.rev) in Hr.
    rewrite rev_involutive_str, rev_app_distr_str in Hr.
    change (String.rev (Str.skip_spaces true (String.rev t))) with (Str.strip s) in Hr.
    rewrite H, app_assoc_str in Hr.
    by apply (skip_spaces_stops false (S (String.length s)) s ltac:(lia) ws
                (rest +:+ String.rev r)).
  - apply (f_equal String.rev) in H. unfold Str.strip, Str.rstrip in H.
    rewrite rev_involutive_str, rev_app_distr_str in H. fold t in H.
    apply (skip_spaces_stops true (S (String.length (String.rev t))) (String.rev t)
             ltac:(lia) (String.rev ws) (String.rev rest)); [|done].
    by rewrite rev_involutive_str.
Qed.

(** ** The time stamp *)

Lemma digit_is_digit z : Str.is_digit (Str.digit z) = true.
Proof.
  unfold Str.is_digit, Str.digit, Str.code.
  assert (0 <= z mod 10 < 10) by (apply Z.mod_pos_bound; lia).
  rewrite nat_ascii_embedding by lia.
  apply andb_true_iff. split; apply Nat.leb_le; lia.
Qed.

Lemma digit_mod z : Str.digit (z mod 10) = Str.digit z.
Proof. unfold Str.digit. by rewrite Z.mod_mod. Qed.

(** From year 1000 to year 9999, [%Y] prints four digits. *)
Lemma decimal_year (y : Z) :
  1000 <= y <= 9999 ->
  Str.decimal y =
    String (Str.digit (y / 1000))
      (String (Str.digit (y / 100)) (String (Str.digit (y / 10)) (String (Str.digit y) ""))).
Proof.
  intros Hy. unfold Str.decimal.
  assert (Hlog : 9 <= Z.log2 y).
  { change 9 with (Z.log2 512). apply Z.log2_le_mono. lia. }
  rewrite (Z.abs_eq y) by lia.
  destruct (Z.ltb_spec y 0) as [?|_]; [lia|].
  destruct (Z.to_nat (Z.log2 y)) as [|[|[|fuel]]] eqn:Hfuel; [lia..|].
  cbn [Str.decimal_go].
  assert (E1 : (y / 10 =? 0) = false) by (apply Z.eqb_neq; Z.div_mod_to_equations; lia).
  assert (E2 : (y / 10 / 10 =? 0) = false) by (apply Z.eqb_neq; Z.div_mod_to_equations; lia).
  assert (E3 : (y / 10 / 10 / 10 =? 0) = false)
    by (apply Z.eqb_neq; Z.div_mod_to_equations; lia).
  assert (E4 : (y / 10 / 10 / 10 / 10 =? 0) = true)
    by (apply Z.eqb_eq; Z.div_mod_to_equations; lia).
  rewrite E1, E2, E3, E4.
  rewrite !Z.div_div by lia. reflexivity.
Qed.

(** The name of a saved prompt carries a YYYYMMDDTHHMMSSZ stamp. *)
Lemma strftime_is_stamp dt : Spec.utc_datetime dt -> Spec.is_stamp (strftime dt) = true.
Proof.
  intros (Hy & _). unfold strftime, Str.pad2. rewrite (decimal_year _ Hy).
  rewrite !app_cons, !app_nil_l. unfold Spec.is_stamp.
  cbn [String.list_ascii_of_string forallb]. by rewrite !digit_is_digit.
Qed.

Lemma digit_value_digit z : Spec.digit_value (Str.digit z) = z mod 10.
Proof.
  unfold Spec.digit_value, Str.digit, Str.code.
  assert (0 <= z mod 10 < 10) by (apply Z.mod_pos_bound; lia).
  rewrite nat_ascii_embedding by lia. lia.
Qed.

(** The stamp reads back as the second it was printed from. *)
Lemma read_stamp_strftime dt :
  Spec.utc_datetime dt -> Spec.read_stamp (strftime dt) = Some dt.
Proof.
  intros Hdt. unfold Spec.read_stamp. rewrite (strftime_is_stamp _ Hdt).
  destruct Hdt as (Hy & Hm & Hd & Hh & Hn & Hs).
  unfold strftime, Str.pad2. rewrite (decimal_year _ Hy).
  rewrite !app_cons, !app_nil_l. cbn [String.list_ascii_of_string].
  unfold Spec.number. cbn [fold_left]. rewrite !digit_value_digit.
  destruct dt as [y m d h n s]; cbn in *. f_equal.
  f_equal; Z.div_mod_to_equations; lia.
Qed.

(** ** Where failed prompts are saved *)

Lemma failed_prompts_dir_tail here : ∃ x, FAILED_PROMPTS_DIR here = x +:+ "failed_prompts".
Proof.
  unfold FAILED_PROMPTS_DIR, Os.path_join. cbn [String.prefix].
  destruct (String.eqb here "" || Os.ends_with_slash here).
  - by exists here.
  - exists (here +:+ "/"). by rewrite app_assoc_str.
Qed.

(** The saved file sits directly in the failed-prompts directory. *)
Lemma saved_prompt_path here stamp :
  Os.path_join (FAILED_PROMPTS_DIR here) ("failed_prompt_" +:+ stamp +:+ ".txt")
  = FAILED_PROMPTS_DIR here +:+ "/failed_prompt_" +:+ stamp +:+ ".txt".
Proof.
  destruct (failed_prompts_dir_tail here) as [x ->]. unfold Os.path_join.
  assert (String.prefix "/" ("failed_prompt_" +:+ stamp +:+ ".txt") = false) as -> by done.
  assert (String.eqb (x +:+ "failed_prompts") "" = false) as ->.
  { apply String.eqb_neq. intros H. apply (f_equal String.rev) in H.
    by rewrite rev_app_distr_str in H. }
  assert (Os.ends_with_slash (x +:+ "failed_prompts") = false) as ->.
  { unfold Os.ends_with_slash. by rewrite rev_app_distr_str. }
  cbn [orb]. by rewrite !app_assoc_str.
Qed.

(** ** The request handler *)

Section Handlers.

Variable json_loads : string -> option json.
Variable float_repr : spec_float -> string.
Variable printable : Z -> bool.
Variable here : string.

Local Abbreviation handle := (process_notes json_loads float_repr printable here).
Local Abbreviation prompt_of := (request_prompt float_repr printable).
Local Abbreviation prompt_for := (build_prompt float_repr printable).

(** A body that is a [dict], or that [or] replaces by the empty one,
    always yields a prompt: each field is the body's, or its default. *)
Lemma request_prompt_dict body d :
  Py.or_else body (JObj []) = JObj d ->
  prompt_of body =
    Ok (prompt_for (from_option id (JStr "") (Py.lookup d "topic"))
                   (from_option id (JStr "General") (Py.lookup d "tone"))
                   (from_option id (JStr "") (Py.lookup d "notes"))).
Proof. intros H. unfold request_prompt. by rewrite H. Qed.

(** A prompt is only ever built from such a body. *)
Lemma request_prompt_inv body prompt :
  prompt_of body = Ok prompt -> ∃ d, Py.or_else body (JObj []) = JObj d.
Proof.
  unfold request_prompt. destruct (Py.or_else body (JObj [])); try done. eauto.
Qed.

(** When the provider returns a text the reply is 200 with the parsed
    text, or with the fallback around the stripped text. *)
Lemma process_notes_text client body w prompt text :
  prompt_of body = Ok prompt ->
  client (provider_request prompt) = Ok (Some text) ->
  handle client body w =
    (Ok (Json 200 (match json_loads text with
                   | Some v => v
                   | None => fallback (Str.strip text)
                   end)),
     Os.log (Generate prompt) w).
Proof.
  intros Hp Hc. unfold process_notes, generate_content. rewrite Hp, Hc.
  unfold parse_reply, loads, text_strip. cbn. by destruct (json_loads text).
Qed.

(** When the provider raises, the reply is the one of [on_error]. *)
Lemma process_notes_error client body w prompt err_text :
  prompt_of body = Ok prompt ->
  client (provider_request prompt) = Raise err_text ->
  handle client body w =
    (Ok (fst (on_error here prompt err_text (Os.log (Generate prompt) w))),
     snd (on_error here prompt err_text (Os.log (Generate prompt) w))).
Proof.
  intros Hp Hc. unfold process_notes, generate_content. rewrite Hp, Hc.
  cbn. by destruct (on_error _ _ _ _).
Qed.

Lemma is_unavailable_transient err_text :
  is_unavailable err_text = true <-> Spec.transient err_text.
Proof.
  unfold is_unavailable, Spec.transient.
  rewrite !orb_true_iff, contains_substring, !contains_lower. tauto.
Qed.

Lemma fallback_is_note_response text : Spec.note_response (fallback text) = true.
Proof. reflexivity. Qed.

(** The reply of [on_error] to an error that is not a transient one. *)
Lemma on_error_other prompt err_text w :
  is_unavailable err_text = false ->
  on_error here prompt err_text w =
    (Json 500 (JObj [("error", JStr err_text)]),
     Os.print "Error generating content:" err_text w).
Proof. intros H. unfold on_error. by rewrite H. Qed.

(** The reply of [on_error] to a transient error, whatever the write does. *)
Lemma on_error_unavailable prompt err_text w :
  is_unavailable err_text = true ->
  on_error here prompt err_text w =
    (Json 503 (JObj [("error", JStr unavailable_message)]),
     snd (save_failed_prompt here prompt (Os.print "Error generating content:" err_text w))).
Proof.
  intros H. unfold on_error. rewrite H.
  by destruct (save_failed_prompt _ _ _) as [[] ?].
Qed.

(** [save_failed_prompt] never raises. *)
Lemma save_failed_prompt_returns prompt w : fst (save_failed_prompt here prompt w) = Ok tt.
Proof.
  unfold save_failed_prompt. by destruct (Os.write_text _ _ _) as [[] ?].
Qed.

(** C1 (as amended). Whenever the provider returns a text, the reply is
    HTTP 200 with a JSON body: the parsed text itself when it parses,
    and otherwise the fallback object, whose expandedNotes is the
    stripped text and whose four lists are empty. The body has the
    NoteResponse shape when the text does not parse, and when the parsed
    value has that shape. *)
Theorem returned_text_gives_200 client body w prompt text :
  prompt_of body = Ok prompt ->
  client (provider_request prompt) = Ok (Some text) ->
  ∃ payload,
    fst (handle client body w) = Ok (Json 200 payload)
    ∧ (∀ v, json_loads text = Some v -> payload = v)
    ∧ (json_loads text = None ->
         payload = JObj [ ("expandedNotes", JStr (Str.strip text)); ("important", JArr []);
                          ("explain", JArr []); ("tasks", JArr []); ("meeting", JArr []) ])
    ∧ (json_loads text = None -> Spec.note_response payload = true)
    ∧ (∀ v, json_loads text = Some v -> Spec.note_response v = true ->
         Spec.note_response payload = true).
Proof.
  intros Hp Hc. rewrite (process_notes_text _ _ _ _ _ Hp Hc). cbn [fst].
  eexists. split; [reflexivity|].
  destruct (json_loads text) as [v|]; repeat split; try done.
  - by intros ? [= ->].
  - by intros ? [= ->].
Qed.


(** C3. A text that does not parse as JSON is answered 200 with the
    fallback body: expandedNotes is the text without the white space at
    its two ends, and the four lists are empty. *)
Theorem non_json_text_falls_back client body w prompt text :
  prompt_of body = Ok prompt ->
  client (provider_request prompt) = Ok (Some text) ->
  json_loads text = None ->
  ∃ stripped,
    fst (handle client body w)
    = Ok (Json 200 (JObj [ ("expandedNotes", JStr stripped); ("important", JArr []);
                           ("explain", JArr []); ("tasks", JArr []); ("meeting", JArr []) ]))
    ∧ stripped = Str.strip text
    ∧ (∃ l r, text = l +:+ stripped +:+ r ∧ Spec.blank l ∧ Spec.blank r)
    ∧ (∀ ws rest, Spec.space ws -> stripped ≠ ws +:+ rest ∧ stripped ≠ rest +:+ ws).
Proof.
  intros Hp Hc Hj. rewrite (process_notes_text _ _ _ _ _ Hp Hc), Hj. cbn [fst].
  exists (Str.strip text). split; [reflexivity|]. split; [reflexivity|]. split.
  - apply strip_removed.
  - intros ws rest Hws. by apply strip_is_trimmed.
Qed.

(** C4. A transient error makes the handler try to write the prompt it
    sent, and nothing else, to failed_prompt_<stamp>.txt in the
    failed-prompts directory, the stamp being the UTC second of the clock
    as YYYYMMDDTHHMMSSZ. The reply is 503 with the fixed message whatever
    becomes of the write: it succeeds and the file holds the prompt;
    [open] raises and the files are unchanged; the prompt cannot be
    encoded and the file is left empty; or the disk fails after [open]
    and the file holds what the disk kept. A failure is printed and goes
    no further. *)
Theorem unavailable_saves_prompt client body w prompt err_text :
  prompt_of body = Ok prompt ->
  client (provider_request prompt) = Raise err_text ->
  Spec.transient err_text ->
  Spec.utc_datetime (clock w) ->
  ∃ stamp report,
    Spec.is_stamp stamp = true
    ∧ Spec.read_stamp stamp = Some (clock w)
    ∧ stamp = strftime (clock w)
    ∧ fst (handle client body w)
      = Ok (Json 503 (JObj [("error",
              JStr "The AI model is not available. Please try again later.")]))
    ∧ trace (snd (handle client body w))
      = trace w ++ [ Generate prompt;
                     Print ("Error generating content: " +:+ err_text);
                     OpenWrite (FAILED_PROMPTS_DIR here +:+ "/failed_prompt_" +:+ stamp +:+ ".txt")
                               prompt;
                     Print report ]
    ∧ (write_errors w !! (FAILED_PROMPTS_DIR here +:+ "/failed_prompt_" +:+ stamp +:+ ".txt")
       = None ->
       Py.encode_error prompt = None ->
         files (snd (handle client body w))
         = <[ FAILED_PROMPTS_DIR here +:+ "/failed_prompt_" +:+ stamp +:+ ".txt" := prompt ]>
             (files w)
         ∧ report = "Saved failed prompt to: " +:+ FAILED_PROMPTS_DIR here
                    +:+ "/failed_prompt_" +:+ stamp +:+ ".txt")
    ∧ (∀ err,
         write_errors w !! (FAILED_PROMPTS_DIR here +:+ "/failed_prompt_" +:+ stamp +:+ ".txt")
         = Some (OpenRaises err) ->
         files (snd (handle client body w)) = files w
         ∧ report = "Failed to save prompt: " +:+ err)
    ∧ (∀ err,
         (∀ e, write_errors w
               !! (FAILED_PROMPTS_DIR here +:+ "/failed_prompt_" +:+ stamp +:+ ".txt")
               ≠ Some (OpenRaises e)) ->
         Py.encode_error prompt = Some err ->
         files (snd (handle client body w))
         = <[ FAILED_PROMPTS_DIR here +:+ "/failed_prompt_" +:+ stamp +:+ ".txt" := "" ]>
             (files w)
         ∧ report = "Failed to save prompt: " +:+ err)
    ∧ (∀ err kept,
         write_errors w !! (FAILED_PROMPTS_DIR here +:+ "/failed_prompt_" +:+ stamp +:+ ".txt")
         = Some (WriteRaises err kept) ->
         Py.encode_error prompt = None ->
         files (snd (handle client body w))
         = <[ FAILED_PROMPTS_DIR here +:+ "/failed_prompt_" +:+ stamp +:+ ".txt" := kept ]>
             (files w)
         ∧ report = "Failed to save prompt: " +:+ err).
Proof.
  intros Hp Hc Ht Hdt. apply is_unavailable_transient in Ht.
  rewrite (process_notes_error _ _ _ _ _ Hp Hc). cbn [fst snd].
  rewrite (on_error_unavailable _ _ _ Ht). cbn [fst snd].
  unfold save_failed_prompt, Os.write_text, Os.utcnow. cbn [clock Os.print Os.log write_errors].
  rewrite saved_prompt_path.
  set (path := FAILED_PROMPTS_DIR here +:+ "/failed_prompt_" +:+ strftime (clock w) +:+ ".txt").
  exists (strftime (clock w)).
  destruct (write_errors w !! path) as [[err|err kept]|] eqn:Hw;
    [|destruct (Py.encode_error prompt) as [bad|] eqn:He..].
  - exists ("Failed to save prompt: " +:+ err).
    split; [by apply strftime_is_stamp|]. split; [by apply read_stamp_strftime|].
    split; [done|]. split; [done|]. fold path. rewrite Hw. cbn. rewrite <- !app_assoc. cbn.
    split; [done|]. split; [done|]. split; [by intros ? [= ->]|].
    split; [|done]. intros ? H. by destruct (H err).
  - exists ("Failed to save prompt: " +:+ bad).
    split; [by apply strftime_is_stamp|]. split; [by apply read_stamp_strftime|].
    split; [done|]. split; [done|]. fold path. rewrite Hw. cbn. rewrite <- !app_assoc. cbn.
    split; [done|]. split; [done|]. split; [done|].
    split; [|done]. by intros ? _ [= ->].
  - exists ("Failed to save prompt: " +:+ err).
    split; [by apply strftime_is_stamp|]. split; [by apply read_stamp_strftime|].
    split; [done|]. split; [done|]. fold path. rewrite Hw. cbn. rewrite <- !app_assoc. cbn.
    split; [done|]. split; [done|]. split; [done|].
    split; [done|]. by intros ? ? [= -> ->] _.
  - exists ("Failed to save prompt: " +:+ bad).
    split; [by apply strftime_is_stamp|]. split; [by apply read_stamp_strftime|].
    split; [done|]. split; [done|]. fold path. rewrite Hw. cbn. rewrite <- !app_assoc. cbn.
    split; [done|]. split; [done|]. split; [done|].
    split; [|done]. by intros ? _ [= ->].
  - exists ("Saved failed prompt to: " +:+ path).
    split; [by apply strftime_is_stamp|]. split; [by apply read_stamp_strftime|].
    split; [done|]. split; [done|]. fold path. rewrite Hw. cbn. rewrite <- !app_assoc. cbn.
    split; [done|]. split; [done|]. split; [done|]. split; done.
Qed.

Lemma Ok_inj {A : Type} (a b : A) : Ok a = Ok b -> a = b.
Proof. intros H. by injection H. Qed.

(** Two prompts that differ in the tone alone are different texts. *)
Lemma prompt_lines_tone topic notes :
  Str.join Str.nl (prompt_lines topic "None" notes)
  ≠ Str.join Str.nl (prompt_lines topic "General" notes).
Proof.
  unfold prompt_lines. cbn [Str.join]. intros H.
  repeat first [ apply app_inv_head_str in H | rewrite !app_assoc_str in H ].
  discriminate H.
Qed.

(** C5. In a body that is an object, or that is replaced by the empty
    one, every field that is absent takes its default in the prompt that
    is sent: the empty string for topic and notes, General for tone. If
    the provider answers that prompt with JSON of the NoteResponse shape,
    the reply is 200 with that JSON. *)
Theorem missing_fields_take_defaults client body d w prompt text v :
  Py.or_else body (JObj []) = JObj d ->
  prompt_of body = Ok prompt ->
  client (provider_request prompt) = Ok (Some text) ->
  json_loads text = Some v ->
  Spec.note_response v = true ->
  (∃ topic tone notes,
     prompt = prompt_for topic tone notes
     ∧ (Py.lookup d "topic" = None -> topic = JStr "")
     ∧ (Py.lookup d "notes" = None -> notes = JStr "")
     ∧ (Py.lookup d "tone" = None -> tone = JStr "General"))
  ∧ fst (handle client body w) = Ok (Json 200 v)
  ∧ Spec.note_response v = true.
Proof.
  intros Hd Hp Hc Hj Hv. split; [|split; [|done]].
  - rewrite (request_prompt_dict _ _ Hd) in Hp. injection Hp as <-.
    eexists _, _, _. split; [reflexivity|].
    repeat split; by intros ->.
  - by rewrite (process_notes_text _ _ _ _ _ Hp Hc), Hj.
Qed.

(** C6. A text that parses as JSON of the NoteResponse shape is answered
    200 with exactly the parsed value. *)
Theorem schema_json_is_returned_verbatim client body w prompt text v :
  prompt_of body = Ok prompt ->
  client (provider_request prompt) = Ok (Some text) ->
  json_loads text = Some v ->
  Spec.note_response v = true ->
  fst (handle client body w) = Ok (Json 200 v).
Proof.
  intros Hp Hc Hj _. by rewrite (process_notes_text _ _ _ _ _ Hp Hc), Hj.
Qed.

(** C8. A text that parses as JSON of another shape is answered 200 with
    the parsed value as the whole body; the body is not the fallback,
    which only a text that does not parse receives. *)
Theorem other_json_passes_through client body w prompt text v :
  prompt_of body = Ok prompt ->
  client (provider_request prompt) = Ok (Some text) ->
  json_loads text = Some v ->
  Spec.note_response v = false ->
  fst (handle client body w) = Ok (Json 200 v)
  ∧ ∀ wrapped, v ≠ fallback wrapped.
Proof.
  intros Hp Hc Hj Hv. split.
  - by rewrite (process_notes_text _ _ _ _ _ Hp Hc), Hj.
  - intros wrapped ->. by rewrite fallback_is_note_response in Hv.
Qed.

(** C9. Defaults follow the absence of a key, not a null value: a null
    body is handled as the empty object, a field that is present is
    interpolated as it is, and a null tone is printed as None, which is
    not the prompt that General gives. *)
Theorem defaults_follow_absence client w d :
  handle client JNull w = handle client (JObj []) w
  ∧ (∀ v, Py.lookup d "topic" = Some v ->
       ∃ tone notes, prompt_of (JObj d) = Ok (prompt_for v tone notes))
  ∧ (∀ v, Py.lookup d "notes" = Some v ->
       ∃ topic tone, prompt_of (JObj d) = Ok (prompt_for topic tone v))
  ∧ (∀ v, Py.lookup d "tone" = Some v ->
       ∃ topic notes, prompt_of (JObj d) = Ok (prompt_for topic v notes))
  ∧ (Py.lookup d "tone" = Some JNull ->
       ∃ topic notes,
         prompt_of (JObj d) = Ok (Str.join Str.nl (prompt_lines topic "None" notes))
         ∧ prompt_of (JObj d) ≠ Ok (Str.join Str.nl (prompt_lines topic "General" notes))).
Proof.
  split; [reflexivity|].
  assert (Hp := request_prompt_dict (JObj d) d ltac:(by destruct d)).
  repeat split.
  - intros v Hv. rewrite Hv in Hp. by eexists _, _.
  - intros v Hv. rewrite Hv in Hp. by eexists _, _.
  - intros v Hv. rewrite Hv in Hp. by eexists _, _.
  - intros Hv. rewrite Hv in Hp. eexists _, _. split; [exact Hp|].
    rewrite Hp. intros H%Ok_inj. revert H. apply prompt_lines_tone.
Qed.

(** C10. The reply to a returned text depends on the text alone: two
    requests whose provider calls return the same text get the same 200
    reply, whatever their bodies, providers and surroundings. *)
Theorem reply_depends_on_text_only client1 client2 body1 body2 w1 w2 prompt1 prompt2 text :
  prompt_of body1 = Ok prompt1 ->
  prompt_of body2 = Ok prompt2 ->
  client1 (provider_request prompt1) = Ok (Some text) ->
  client2 (provider_request prompt2) = Ok (Some text) ->
  fst (handle client1 body1 w1) = fst (handle client2 body2 w2)
  ∧ ∃ payload, fst (handle client1 body1 w1) = Ok (Json 200 payload).
Proof.
  intros Hp1 Hp2 Hc1 Hc2.
  rewrite (process_notes_text _ _ _ _ _ Hp1 Hc1), (process_notes_text _ _ _ _ _ Hp2 Hc2).
  split; [reflexivity|]. by eexists.
Qed.

End Handlers.

(** ** The static fallback *)

(** [serve_react] as a function of the path it is called with: it sends
    the file at a non-empty path that exists under the static directory;
    otherwise index.html when that exists; otherwise the 200 status
    document. Which requests are routed to it is the URL map's: the
    application is created with static_url_path="/" (line 20), so that
    Flask's own static rule /<path:filename> is registered before the
    two routes of [serve_react]. *)
Theorem serve_react_cases static_folder path w :
  (path ≠ "" ∧ Os.path_exists (Os.path_join static_folder path) w = true ->
     serve_react static_folder path w = SentFile static_folder path)
  ∧ (¬ (path ≠ "" ∧ Os.path_exists (Os.path_join static_folder path) w = true) ->
     Os.path_exists (Os.path_join static_folder "index.html") w = true ->
     serve_react static_folder path w = SentFile static_folder "index.html")
  ∧ (¬ (path ≠ "" ∧ Os.path_exists (Os.path_join static_folder path) w = true) ->
     Os.path_exists (Os.path_join static_folder "index.html") w = false ->
     serve_react static_folder path w
     = Json 200 (JObj [("status", JStr "Backend running. Frontend build not found.")])).
Proof.
  unfold serve_react, send_from_directory, jsonify.
  destruct (String.eqb_spec path "") as [->|Hne]; cbn [negb andb].
  - split; [by intros [? _]|]. split; by intros _ ->.
  - destruct (Os.path_exists (Os.path_join static_folder path) w); cbn.
    + split; [done|]. split; intros []; done.
    + split; [by intros [_ ?]|]. split; by intros _ ->.
Qed.

(** ** Worked examples

    Each one runs the handler, with the reference interpreter for the
    library functions, on the surroundings of [Sample]. *)

(** C1: a reply that is an empty JSON array is answered 200 with the
    array, which is no NoteResponse. *)
Lemma array_reply_is_not_note_response :
  fst (Sample.process (Sample.replies "[]") (JObj []) Sample.idle) = Ok (Json 200 (JArr []))
  ∧ Spec.note_response (JArr []) = false.
Proof. split; vm_compute; reflexivity. Qed.

(** C1, as amended, on the same reply. *)
Lemma returned_text_gives_200_witness :
  ∃ payload,
    fst (Sample.process (Sample.replies "[]") (JObj []) Sample.idle) = Ok (Json 200 payload)
    ∧ (∀ v, Ref.loads "[]" = Some v -> payload = v)
    ∧ (Ref.loads "[]" = None ->
         payload = JObj [ ("expandedNotes", JStr (Str.strip "[]")); ("important", JArr []);
                          ("explain", JArr []); ("tasks", JArr []); ("meeting", JArr []) ])
    ∧ (Ref.loads "[]" = None -> Spec.note_response payload = true)
    ∧ (∀ v, Ref.loads "[]" = Some v -> Spec.note_response v = true ->
         Spec.note_response payload = true).
Proof.
  apply (returned_text_gives_200 Ref.loads Ref.float_repr Ref.printable Sample.here
           (Sample.replies "[]") (JObj []) Sample.idle Sample.default_prompt "[]");
    reflexivity.
Defined.


(** C3: the non-JSON sentence of the specification. *)
Lemma non_json_text_falls_back_witness :
  ∃ stripped,
    fst (Sample.process (Sample.replies "  Sure, here are your notes expanded. ")
           (JObj []) Sample.idle)
    = Ok (Json 200 (JObj [ ("expandedNotes", JStr stripped); ("important", JArr []);
                           ("explain", JArr []); ("tasks", JArr []); ("meeting", JArr []) ]))
    ∧ stripped = "Sure, here are your notes expanded.".
Proof.
  destruct (non_json_text_falls_back Ref.loads Ref.float_repr Ref.printable Sample.here
              (Sample.replies "  Sure, here are your notes expanded. ") (JObj []) Sample.idle
              Sample.default_prompt "  Sure, here are your notes expanded. "
              eq_refl eq_refl eq_refl) as (stripped & Hr & Hs & _).
  exists stripped. split; [exact Hr|]. rewrite Hs. reflexivity.
Defined.

(** C4: an overloaded model and a topic that holds a lone surrogate:
    the prompt cannot be encoded, the reply is 503 all the same, and the
    file of that second is left empty. *)
Lemma unavailable_saves_prompt_witness :
  fst (Sample.process (Sample.fails "The Model Is Overloaded") Sample.surrogate_topic
         Sample.idle)
  = Ok (Json 503 (JObj [("error",
          JStr "The AI model is not available. Please try again later.")]))
  ∧ files (snd (Sample.process (Sample.fails "The Model Is Overloaded")
                  Sample.surrogate_topic Sample.idle))
    = {[ Sample.stamped := "" ]}
  ∧ Spec.read_stamp "20250309T120507Z" = Some Sample.noon.
Proof.
  destruct (unavailable_saves_prompt Ref.loads Ref.float_repr Ref.printable Sample.here
              (Sample.fails "The Model Is Overloaded") Sample.surrogate_topic Sample.idle
              (build_prompt Ref.float_repr Ref.printable
                 (JStr (Ref.utf8 55296)) (JStr "General") (JStr ""))
              "The Model Is Overloaded" eq_refl eq_refl)
    as (stamp & report & _ & Hread & Hs & Hr & _ & _ & _ & Henc & _).
  - right; right. by exists "The ", "Model Is Overloaded", "".
  - unfold Spec.utc_datetime. cbn. lia.
  - subst stamp. split; [exact Hr|]. split; [|exact Hread].
    destruct (Py.encode_error
                (build_prompt Ref.float_repr Ref.printable
                   (JStr (Ref.utf8 55296)) (JStr "General") (JStr ""))) as [err|] eqn:E;
      [|vm_compute in E; discriminate E].
    destruct (Henc err) as [Hf _]; [|reflexivity|exact Hf].
    intros e H. unfold Sample.idle in H. cbn [write_errors] in H.
    rewrite lookup_empty in H. discriminate H.
Defined.

(** C5: a body with its notes only, and a provider that follows the
    schema. *)
Lemma missing_fields_take_defaults_witness :
  (∃ topic tone notes,
     build_prompt Ref.float_repr Ref.printable (JStr "") (JStr "General") (JStr "buy milk??")
     = build_prompt Ref.float_repr Ref.printable topic tone notes
     ∧ (Py.lookup [("notes", JStr "buy milk??")] "topic" = None -> topic = JStr "")
     ∧ (Py.lookup [("notes", JStr "buy milk??")] "notes" = None -> notes = JStr "")
     ∧ (Py.lookup [("notes", JStr "buy milk??")] "tone" = None -> tone = JStr "General"))
  ∧ fst (Sample.process (Sample.replies Sample.good_text) Sample.notes_only Sample.idle)
    = Ok (Json 200 Sample.good_json)
  ∧ Spec.note_response Sample.good_json = true.
Proof.
  apply (missing_fields_take_defaults Ref.loads Ref.float_repr Ref.printable Sample.here
           (Sample.replies Sample.good_text) Sample.notes_only
           [("notes", JStr "buy milk??")] Sample.idle
           (build_prompt Ref.float_repr Ref.printable (JStr "") (JStr "General") (JStr "buy milk??"))
           Sample.good_text Sample.good_json);
    first [ reflexivity | vm_compute; reflexivity ].
Defined.

(** C6: the same reply to a body without fields. *)
Lemma schema_json_is_returned_verbatim_witness :
  fst (Sample.process (Sample.replies Sample.good_text) (JObj []) Sample.idle)
  = Ok (Json 200 Sample.good_json).
Proof.
  apply (schema_json_is_returned_verbatim Ref.loads Ref.float_repr Ref.printable Sample.here
           (Sample.replies Sample.good_text) (JObj []) Sample.idle Sample.default_prompt
           Sample.good_text Sample.good_json);
    first [ reflexivity | vm_compute; reflexivity ].
Defined.

(** C8: a JSON array of numbers is the whole body. *)
Lemma other_json_passes_through_witness :
  fst (Sample.process (Sample.replies "[1, 2]") (JObj []) Sample.idle)
  = Ok (Json 200 (JArr [JInt 1; JInt 2]))
  ∧ ∀ wrapped, JArr [JInt 1; JInt 2] ≠ fallback wrapped.
Proof.
  apply (other_json_passes_through Ref.loads Ref.float_repr Ref.printable Sample.here
           (Sample.replies "[1, 2]") (JObj []) Sample.idle Sample.default_prompt
           "[1, 2]" (JArr [JInt 1; JInt 2]));
    first [ reflexivity | vm_compute; reflexivity ].
Defined.

(** C9: a null tone next to a topic. *)
Lemma defaults_follow_absence_witness :
  ∃ topic notes,
    request_prompt Ref.float_repr Ref.printable Sample.null_tone
    = Ok (Str.join Str.nl (prompt_lines topic "None" notes))
    ∧ request_prompt Ref.float_repr Ref.printable Sample.null_tone
      ≠ Ok (Str.join Str.nl (prompt_lines topic "General" notes)).
Proof.
  destruct (defaults_follow_absence Ref.loads Ref.float_repr Ref.printable Sample.here
              (Sample.replies "[]") Sample.idle
              [("topic", JStr "shopping"); ("tone", JNull)]) as (_ & _ & _ & _ & H).
  exact (H eq_refl).
Defined.

(** C10: two bodies, two disks, one reply. *)
Lemma reply_depends_on_text_only_witness :
  fst (Sample.process (Sample.replies "[1, 2]") Sample.notes_only Sample.idle)
  = fst (Sample.process (Sample.replies "[1, 2]") Sample.null_tone Sample.read_only)
  ∧ ∃ payload,
      fst (Sample.process (Sample.replies "[1, 2]") Sample.notes_only Sample.idle)
      = Ok (Json 200 payload).
Proof.
  apply (reply_depends_on_text_only Ref.loads Ref.float_repr Ref.printable Sample.here
           (Sample.replies "[1, 2]") (Sample.replies "[1, 2]")
           Sample.notes_only Sample.null_tone Sample.idle Sample.read_only
           (build_prompt Ref.float_repr Ref.printable (JStr "") (JStr "General") (JStr "buy milk??"))
           (build_prompt Ref.float_repr Ref.printable (JStr "shopping") JNull (JStr "")) "[1, 2]");
    reflexivity.
Defined.

(** [serve_react] called with a missing path without a build, and with
    the files of a build. *)
Lemma serve_react_cases_witness :
  serve_react Sample.static_folder "nonexistent/path" Sample.idle
  = Json 200 (JObj [("status", JStr "Backend running. Frontend build not found.")])
  ∧ serve_react Sample.static_folder "main.js" Sample.built
    = SentFile Sample.static_folder "main.js"
  ∧ serve_react Sample.static_folder "" Sample.built
    = SentFile Sample.static_folder "index.html".
Proof.
  split; [|split].
  - apply (serve_react_cases Sample.static_folder "nonexistent/path" Sample.idle).
    + intros [_ H]. vm_compute in H. discriminate H.
    + vm_compute. reflexivity.
  - apply (serve_react_cases Sample.static_folder "main.js" Sample.built).
    split; [discriminate | vm_compute; reflexivity].
  - apply (serve_react_cases Sample.static_folder "" Sample.built).
    + intros [H _]. by apply H.
    + vm_compute. reflexivity.
Defined.

(** * Further properties of the handlers *)

Lemma app_inv_tail_str s t u : s +:+ u = t +:+ u -> s = t.
Proof.
  intros H. apply (f_equal String.rev) in H. rewrite !rev_app_distr_str in H.
  apply app_inv_head_str in H. by rewrite <- (rev_involutive_str s), H, rev_involutive_str.
Qed.

Lemma app_neq_self s t : t ≠ "" -> s +:+ t ≠ s.
Proof.
  intros Ht H. apply Ht. apply (app_inv_head_str s). by rewrite app_nil_r.
Qed.

Lemma digit_inj a b : 0 <= a < 10 -> 0 <= b < 10 -> Str.digit a = Str.digit b -> a = b.
Proof.
  intros Ha Hb H. unfold Str.digit in H. apply (f_equal nat_of_ascii) in H.
  rewrite !nat_ascii_embedding in H by (Z.div_mod_to_equations; lia).
  Z.div_mod_to_equations; lia.
Qed.

Lemma pad2_inj a b : 0 <= a < 100 -> 0 <= b < 100 -> Str.pad2 a = Str.pad2 b -> a = b.
Proof.
  intros Ha Hb H. unfold Str.pad2 in H. injection H as H1 H2.
  rewrite <- (digit_mod a), <- (digit_mod b) in H2.
  apply digit_inj in H1; [|Z.div_mod_to_equations; lia..].
  apply digit_inj in H2; [|Z.div_mod_to_equations; lia..].
  Z.div_mod_to_equations; lia.
Qed.

Lemma decimal_year_inj a b :
  1000 <= a <= 9999 -> 1000 <= b <= 9999 -> Str.decimal a = Str.decimal b -> a = b.
Proof.
  intros Ha Hb. rewrite (decimal_year a Ha), (decimal_year b Hb). intros H.
  injection H as H1 H2 H3 H4.
  rewrite <- (digit_mod (a / 100)), <- (digit_mod (b / 100)) in H2.
  rewrite <- (digit_mod (a / 10)), <- (digit_mod (b / 10)) in H3.
  rewrite <- (digit_mod a), <- (digit_mod b) in H4.
  apply digit_inj in H1; [|Z.div_mod_to_equations; lia..].
  apply digit_inj in H2; [|Z.div_mod_to_equations; lia..].
  apply digit_inj in H3; [|Z.div_mod_to_equations; lia..].
  apply digit_inj in H4; [|Z.div_mod_to_equations; lia..].
  Z.div_mod_to_equations; lia.
Qed.

(** Two seconds with the same stamp are the same second. *)
Lemma strftime_inj t1 t2 :
  Spec.utc_datetime t1 -> Spec.utc_datetime t2 -> strftime t1 = strftime t2 -> t1 = t2.
Proof.
  intros (Hy1 & Hm1 & Hd1 & Hh1 & Hn1 & Hs1) (Hy2 & Hm2 & Hd2 & Hh2 & Hn2 & Hs2).
  unfold strftime. rewrite (decimal_year _ Hy1), (decimal_year _ Hy2).
  unfold Str.pad2. rewrite !app_cons, !app_nil_l. intros H.
  injection H as Y1 Y2 Y3 Y4 M1 M2 D1 D2 H1 H2 N1 N2 S1 S2.
  assert (year t1 = year t2).
  { apply decimal_year_inj; [done..|].
    rewrite (decimal_year _ Hy1), (decimal_year _ Hy2). congruence. }
  assert (month t1 = month t2) by (apply pad2_inj; [lia..|unfold Str.pad2; congruence]).
  assert (day t1 = day t2) by (apply pad2_inj; [lia..|unfold Str.pad2; congruence]).
  assert (hour t1 = hour t2) by (apply pad2_inj; [lia..|unfold Str.pad2; congruence]).
  assert (minute t1 = minute t2) by (apply pad2_inj; [lia..|unfold Str.pad2; congruence]).
  assert (second t1 = second t2) by (apply pad2_inj; [lia..|unfold Str.pad2; congruence]).
  destruct t1, t2; cbn in *; congruence.
Qed.

Section Coverage.

Variable json_loads : string -> option json.
Variable float_repr : spec_float -> string.
Variable printable : Z -> bool.
Variable here : string.

Local Abbreviation handle := (process_notes json_loads float_repr printable here).
Local Abbreviation prompt_of := (request_prompt float_repr printable).
Local Abbreviation prompt_for := (build_prompt float_repr printable).
Local Abbreviation saved_at t :=
  (FAILED_PROMPTS_DIR here +:+ "/failed_prompt_" +:+ strftime t +:+ ".txt").

(** The surroundings that [save_failed_prompt] leaves: one write
    attempt and one printed line more, and the file of the second with
    what the write kept in it, if the file was opened. *)
Lemma save_failed_prompt_world prompt w :
  ∃ report kept,
    snd (save_failed_prompt here prompt w) =
      {| files := match kept with
                  | Some text => <[saved_at (clock w) := text]> (files w)
                  | None => files w
                  end;
         dirs := dirs w; write_errors := write_errors w; clock := clock w;
         trace := trace w ++ [OpenWrite (saved_at (clock w)) prompt; Print report] |}
    ∧ (write_errors w !! saved_at (clock w) = None -> kept = Some (Os.stored prompt)).
Proof.
  unfold save_failed_prompt, Os.write_text, Os.utcnow, Os.stored. rewrite saved_prompt_path.
  destruct (write_errors w !! saved_at (clock w)) as [[err|err kept]|];
    [|destruct (Py.encode_error prompt) as [bad|]..].
  - eexists _, None. unfold Os.print, Os.log, Os.set_file. cbn.
    rewrite <- List.app_assoc. by split.
  - eexists _, (Some ""). unfold Os.print, Os.log, Os.set_file. cbn.
    rewrite <- List.app_assoc. by split.
  - eexists _, (Some kept). unfold Os.print, Os.log, Os.set_file. cbn.
    rewrite <- List.app_assoc. by split.
  - eexists _, (Some ""). unfold Os.print, Os.log, Os.set_file. cbn.
    rewrite <- List.app_assoc. by split.
  - eexists _, (Some prompt). unfold Os.print, Os.log, Os.set_file. cbn.
    rewrite <- List.app_assoc. by split.
Qed.

(** A text that can be encoded is stored as it is. *)
Lemma stored_encodable text : Py.encode_error text = None -> Os.stored text = text.
Proof. unfold Os.stored. by intros ->. Qed.

(** The reply to a response that carries no text. *)
Lemma process_notes_no_text client body w prompt :
  prompt_of body = Ok prompt ->
  client (provider_request prompt) = Ok None ->
  handle client body w =
    (Ok (Json 500 (JObj [("error", JStr "'NoneType' object has no attribute 'strip'")])),
     Os.print "Error generating content:" "'NoneType' object has no attribute 'strip'"
       (Os.log (Generate prompt) w)).
Proof.
  intros Hp Hc. unfold process_notes, generate_content. rewrite Hp, Hc. reflexivity.
Qed.

(** The surroundings after a request whose prompt was built, by what the
    provider did. *)
Lemma process_notes_world client body w prompt :
  prompt_of body = Ok prompt ->
  snd (handle client body w) =
    match client (provider_request prompt) with
    | Ok (Some _) => Os.log (Generate prompt) w
    | Ok None =>
        Os.print "Error generating content:" "'NoneType' object has no attribute 'strip'"
          (Os.log (Generate prompt) w)
    | Raise err_text =>
        if is_unavailable err_text
        then snd (save_failed_prompt here prompt
                    (Os.print "Error generating content:" err_text
                       (Os.log (Generate prompt) w)))
        else Os.print "Error generating content:" err_text (Os.log (Generate prompt) w)
    end.
Proof.
  intros Hp. destruct (client (provider_request prompt)) as [[text|]|err_text] eqn:Hc.
  - by rewrite (process_notes_text _ _ _ _ _ _ _ _ _ Hp Hc).
  - by rewrite (process_notes_no_text _ _ _ _ Hp Hc).
  - rewrite (process_notes_error _ _ _ _ _ _ _ _ _ Hp Hc). cbn [snd].
    destruct (is_unavailable err_text) eqn:E.
    + by rewrite on_error_unavailable.
    + by rewrite on_error_other.
Qed.

(** X1. A body that is neither an object nor falsy makes [data.get]
    raise: the handler leaves with the AttributeError before anything is
    sent to the provider, and the surroundings are untouched. *)
Theorem non_object_body_raises client body w :
  Py.truthy body = true ->
  (∀ d, body ≠ JObj d) ->
  handle client body w
  = (Raise ("'" +:+ Py.type_name body +:+ "' object has no attribute 'get'"), w).
Proof.
  intros Ht Hd. unfold process_notes, request_prompt, Py.or_else. rewrite Ht.
  destruct body; try reflexivity. by destruct (Hd fields).
Qed.

(** X2. Every falsy body (null, false, 0, 0.0, the empty string, the
    empty array, the empty object) is handled as the empty object. *)
Theorem falsy_body_is_empty_object client body w :
  Py.truthy body = false ->
  handle client body w = handle client (JObj []) w
  ∧ prompt_of body = Ok (prompt_for (JStr "") (JStr "General") (JStr "")).
Proof.
  intros Ht. unfold process_notes, request_prompt, Py.or_else. by rewrite Ht.
Qed.

(** X3. A provider response without text is not absorbed by the
    fallback: stripping it raises inside the handler of the parse error,
    and the reply is 500 with the text of that AttributeError. Nothing is
    written. *)
Theorem missing_text_is_answered_500 client body w prompt :
  prompt_of body = Ok prompt ->
  client (provider_request prompt) = Ok None ->
  fst (handle client body w)
  = Ok (Json 500 (JObj [("error", JStr "'NoneType' object has no attribute 'strip'")]))
  ∧ files (snd (handle client body w)) = files w
  ∧ ∀ path content, OpenWrite path content ∈ trace (snd (handle client body w)) ->
      OpenWrite path content ∈ trace w.
Proof.
  intros Hp Hc. rewrite (process_notes_no_text _ _ _ _ Hp Hc). cbn [fst snd].
  split; [done|]. split; [done|]. intros path content. cbn.
  rewrite <- app_assoc, elem_of_app. intros [H|H]; [done|].
  repeat (apply elem_of_cons in H as [H|H]; [discriminate H|]). by apply elem_of_nil in H.
Qed.

(** X4. Once the prompt is built the handler never raises: it answers
    200, 500 or 503 with a JSON body; 200 exactly when the provider
    returned a text, and otherwise an object with the one key error. *)
Theorem process_notes_always_replies client body w prompt :
  prompt_of body = Ok prompt ->
  ∃ status payload,
    fst (handle client body w) = Ok (Json status payload)
    ∧ (status = 200 ∨ status = 500 ∨ status = 503)
    ∧ (status = 200 <-> ∃ text, client (provider_request prompt) = Ok (Some text))
    ∧ (status ≠ 200 -> ∃ msg, payload = JObj [("error", JStr msg)]).
Proof.
  intros Hp. destruct (client (provider_request prompt)) as [[text|]|err_text] eqn:Hc.
  - rewrite (process_notes_text _ _ _ _ _ _ _ _ _ Hp Hc). eexists 200, _.
    split; [reflexivity|]. split; [by left|]. split; [|done]. split; [by exists text|done].
  - rewrite (process_notes_no_text _ _ _ _ Hp Hc). eexists 500, _.
    split; [reflexivity|]. split; [by right; left|]. split; [|by eexists].
    split; [done|]. by intros [? ?].
  - rewrite (process_notes_error _ _ _ _ _ _ _ _ _ Hp Hc). cbn [fst].
    destruct (is_unavailable err_text) eqn:E.
    + rewrite on_error_unavailable by done. eexists 503, _.
      split; [reflexivity|]. split; [by right; right|]. split; [|by eexists].
      split; [done|]. by intros [? ?].
    + rewrite on_error_other by done. eexists 500, _.
      split; [reflexivity|]. split; [by right; left|]. split; [|by eexists].
      split; [done|]. by intros [? ?].
Qed.

(** X5. A request calls the provider once, with its own prompt, and
    before anything else: the trace grows by that call and by events
    that are no provider calls, and by the call alone when a text comes
    back. The handler uses nothing of the provider but its answer to
    that call. *)
Theorem provider_is_called_once client body w prompt :
  prompt_of body = Ok prompt ->
  (∃ rest,
     trace (snd (handle client body w)) = trace w ++ Generate prompt :: rest
     ∧ (∀ p, Generate p ∉ rest)
     ∧ ((∃ text, client (provider_request prompt) = Ok (Some text)) -> rest = []))
  ∧ ∀ other : provider,
      other (provider_request prompt) = client (provider_request prompt) ->
      handle other body w = handle client body w.
Proof.
  intros Hp. split.
  - rewrite (process_notes_world _ _ _ _ Hp).
    destruct (client (provider_request prompt)) as [[text|]|err_text].
    + exists []. split; [done|]. split; [|done]. intros p H. by apply elem_of_nil in H.
    + eexists [_]. cbn. rewrite <- app_assoc. split; [reflexivity|].
      split; [|by intros [? ?]]. intros p H.
      repeat (apply elem_of_cons in H as [H|H]; [discriminate H|]). by apply elem_of_nil in H.
    + destruct (is_unavailable err_text).
      * destruct (save_failed_prompt_world prompt
                    (Os.print "Error generating content:" err_text
                       (Os.log (Generate prompt) w))) as (report & kept & Hw & _).
        rewrite Hw. cbn. rewrite <- !app_assoc. eexists [_; _; _].
        split; [reflexivity|]. split; [|by intros [? ?]]. intros p H.
        repeat (apply elem_of_cons in H as [H|H]; [discriminate H|]).
        by apply elem_of_nil in H.
      * eexists [_]. cbn. rewrite <- app_assoc. split; [reflexivity|].
        split; [|by intros [? ?]]. intros p H.
        repeat (apply elem_of_cons in H as [H|H]; [discriminate H|]).
        by apply elem_of_nil in H.
  - intros other Ho. unfold process_notes, generate_content. by rewrite Hp, Ho.
Qed.

(** X6. Whatever the body and the provider, a request only adds to the
    trace, leaves the directories, the clock and the write permissions
    as they were, and changes no file other than the failed prompt of
    the current second. *)
Theorem process_notes_frame (client : provider) (body : json) (w : world) :
  dirs (snd (process_notes json_loads float_repr printable here client body w)) = dirs w
  ∧ clock (snd (process_notes json_loads float_repr printable here client body w)) = clock w
  ∧ write_errors (snd (process_notes json_loads float_repr printable here client body w))
    = write_errors w
  ∧ (∃ added,
       trace (snd (process_notes json_loads float_repr printable here client body w))
       = trace w ++ added)
  ∧ ∀ p, p ≠ FAILED_PROMPTS_DIR here +:+ "/failed_prompt_" +:+ strftime (clock w) +:+ ".txt" ->
      files (snd (process_notes json_loads float_repr printable here client body w)) !! p
      = files w !! p.
Proof.
  destruct (prompt_of body) as [prompt|e] eqn:Hp.
  - rewrite (process_notes_world _ _ _ _ Hp).
    destruct (client (provider_request prompt)) as [[text|]|err_text].
    + cbn. repeat split; try done. by eexists.
    + cbn. rewrite <- app_assoc. repeat split; try done. by eexists.
    + destruct (is_unavailable err_text).
      * destruct (save_failed_prompt_world prompt
                    (Os.print "Error generating content:" err_text
                       (Os.log (Generate prompt) w))) as (report & kept & Hw & _).
        rewrite Hw. cbn. rewrite <- !app_assoc.
        repeat split; try done; [by eexists|].
        intros p Hne. destruct kept; [by rewrite lookup_insert_ne|done].
      * cbn. rewrite <- app_assoc. repeat split; try done. by eexists.
  - unfold process_notes. rewrite Hp. cbn. repeat split; try done.
    exists []. by rewrite List.app_nil_r.
Qed.

(** The files after a transient error on a disk that takes the write. *)
Lemma unavailable_files client body w prompt err_text :
  prompt_of body = Ok prompt ->
  client (provider_request prompt) = Raise err_text ->
  is_unavailable err_text = true ->
  write_errors w !! saved_at (clock w) = None ->
  files (snd (handle client body w)) = <[saved_at (clock w) := Os.stored prompt]> (files w)
  ∧ write_errors (snd (handle client body w)) = write_errors w
  ∧ clock (snd (handle client body w)) = clock w.
Proof.
  intros Hp Hc He Hw. rewrite (process_notes_world _ _ _ _ Hp), Hc, He.
  destruct (save_failed_prompt_world prompt
              (Os.print "Error generating content:" err_text
                 (Os.log (Generate prompt) w))) as (report & kept & Hw1 & Hk).
  rewrite Hw1. cbn. by rewrite (Hk Hw).
Qed.

Lemma saved_at_inj t1 t2 :
  Spec.utc_datetime t1 -> Spec.utc_datetime t2 -> saved_at t1 = saved_at t2 -> t1 = t2.
Proof.
  intros H1 H2 H. apply strftime_inj; [done..|].
  apply app_inv_head_str in H. apply (app_inv_head_str "/failed_prompt_") in H.
  by apply app_inv_tail_str in H.
Qed.

(** X7. The file name has the resolution of a second. Of two transient
    failures in the same second, on a disk that takes the writes, the
    second overwrites the prompt of the first; in different seconds both
    prompts are kept, each in its file. What a write stores is the
    prompt, or nothing for a prompt that cannot be encoded. *)
Theorem failures_in_one_second_share_a_file client1 client2 body1 body2 w t2
    prompt1 prompt2 err1 err2 :
  prompt_of body1 = Ok prompt1 ->
  prompt_of body2 = Ok prompt2 ->
  client1 (provider_request prompt1) = Raise err1 ->
  client2 (provider_request prompt2) = Raise err2 ->
  Spec.transient err1 ->
  Spec.transient err2 ->
  Spec.utc_datetime (clock w) ->
  Spec.utc_datetime t2 ->
  write_errors w !! saved_at (clock w) = None ->
  write_errors w !! saved_at t2 = None ->
  (t2 = clock w ->
     files (snd (handle client2 body2 (Os.at_time t2 (snd (handle client1 body1 w)))))
     = <[saved_at t2 := Os.stored prompt2]> (files w))
  ∧ (t2 ≠ clock w ->
     files (snd (handle client2 body2 (Os.at_time t2 (snd (handle client1 body1 w)))))
       !! saved_at (clock w) = Some (Os.stored prompt1)
     ∧ files (snd (handle client2 body2 (Os.at_time t2 (snd (handle client1 body1 w)))))
         !! saved_at t2 = Some (Os.stored prompt2))
  ∧ (Py.encode_error prompt1 = None -> Os.stored prompt1 = prompt1)
  ∧ (Py.encode_error prompt2 = None -> Os.stored prompt2 = prompt2).
Proof.
  intros Hp1 Hp2 Hc1 Hc2 He1 He2 Ht1 Ht2 Hw1 Hw2.
  apply (is_unavailable_transient json_loads here) in He1, He2.
  destruct (unavailable_files _ _ w _ _ Hp1 Hc1 He1 Hw1) as (Hf1 & He & _).
  set (w1 := snd (handle client1 body1 w)) in *.
  assert (Hw2' : write_errors (Os.at_time t2 w1) !! saved_at (clock (Os.at_time t2 w1)) = None).
  { cbn. by rewrite He. }
  destruct (unavailable_files _ _ (Os.at_time t2 w1) _ _ Hp2 Hc2 He2 Hw2') as (Hf2 & _ & _).
  rewrite Hf2. cbn [Os.at_time clock files]. rewrite Hf1.
  split; [|split; [|split; apply stored_encodable]].
  - intros ->. by rewrite insert_insert_eq.
  - intros Hne. assert (saved_at t2 ≠ saved_at (clock w)).
    { intros H. by apply Hne, saved_at_inj. }
    split.
    + by rewrite lookup_insert_ne, lookup_insert_eq.
    + by rewrite lookup_insert_eq.
Qed.

(** X8. The prompt does not delimit its fields: a topic that contains
    the lines which follow the topic moves text from the notes into the
    topic, so two different requests send the same prompt and are
    answered alike. *)
Theorem prompt_fields_are_not_delimited client w tone x y z :
  x +:+ field_break tone +:+ y ≠ x
  ∧ prompt_of (JObj [ ("topic", JStr (x +:+ field_break tone +:+ y));
                      ("tone", JStr tone); ("notes", JStr z) ])
    = prompt_of (JObj [ ("topic", JStr x); ("tone", JStr tone);
                        ("notes", JStr (y +:+ field_break tone +:+ z)) ])
  ∧ handle client (JObj [ ("topic", JStr (x +:+ field_break tone +:+ y));
                          ("tone", JStr tone); ("notes", JStr z) ]) w
    = handle client (JObj [ ("topic", JStr x); ("tone", JStr tone);
                            ("notes", JStr (y +:+ field_break tone +:+ z)) ]) w.
Proof.
  assert (Hp : prompt_of (JObj [ ("topic", JStr (x +:+ field_break tone +:+ y));
                                 ("tone", JStr tone); ("notes", JStr z) ])
               = prompt_of (JObj [ ("topic", JStr x); ("tone", JStr tone);
                                   ("notes", JStr (y +:+ field_break tone +:+ z)) ])).
  { unfold request_prompt. cbn. f_equal. unfold build_prompt, prompt_lines, field_break.
    cbn [Py.str Str.join]. by rewrite !app_assoc_str. }
  split; [|split; [exact Hp|]].
  - apply app_neq_self. unfold field_break, Str.nl. by rewrite !app_assoc_str, app_cons.
  - unfold process_notes. by rewrite Hp.
Qed.

(** X11. Every reply other than 200 is logged: the line Error generating
    content: followed by the error text is printed, and a 500 reply
    carries that same text, while a 503 reply does not show it. *)
Theorem errors_are_logged client body w prompt status payload :
  prompt_of body = Ok prompt ->
  fst (handle client body w) = Ok (Json status payload) ->
  status ≠ 200 ->
  ∃ err_text,
    Print ("Error generating content: " +:+ err_text) ∈ trace (snd (handle client body w))
    ∧ (status = 500 -> payload = JObj [("error", JStr err_text)])
    ∧ (status = 503 -> payload = JObj [("error", JStr unavailable_message)]
                       ∧ is_unavailable err_text = true).
Proof.
  intros Hp Hr Hs. rewrite (process_notes_world _ _ _ _ Hp).
  destruct (client (provider_request prompt)) as [[text|]|err_text] eqn:Hc.
  - rewrite (process_notes_text _ _ _ _ _ _ _ _ _ Hp Hc) in Hr. cbn in Hr. congruence.
  - rewrite (process_notes_no_text _ _ _ _ Hp Hc) in Hr. cbn in Hr.
    injection Hr as <- <-. eexists. split; [|by split].
    cbn. rewrite elem_of_app. right. apply list_elem_of_singleton. reflexivity.
  - rewrite (process_notes_error _ _ _ _ _ _ _ _ _ Hp Hc) in Hr. cbn [fst] in Hr.
    exists err_text. destruct (is_unavailable err_text) eqn:E.
    + rewrite on_error_unavailable in Hr by done. cbn in Hr. injection Hr as <- <-.
      split; [|by split].
      destruct (save_failed_prompt_world prompt
                  (Os.print "Error generating content:" err_text
                     (Os.log (Generate prompt) w))) as (report & kept & Hw & _).
      rewrite Hw. cbn. rewrite !elem_of_app, !list_elem_of_singleton. tauto.
    + rewrite on_error_other in Hr by done. cbn in Hr. injection Hr as <- <-.
      split; [|by split]. cbn. rewrite elem_of_app. right.
      apply list_elem_of_singleton. reflexivity.
Qed.

End Coverage.

(** Lower-casing leaves the digits alone, and makes no digit. *)
Lemma lower_char_digit c d : Str.is_digit d = true -> Str.lower_char c = d -> c = d.
Proof.
  intros Hd <-. revert Hd.
  destruct c as [[] [] [] [] [] [] [] []]; vm_compute; first [reflexivity | discriminate].
Qed.

Lemma contains_503_lower err_text :
  Str.contains "503" (Str.lower err_text) = Str.contains "503" err_text.
Proof.
  apply Bool.eq_iff_eq_true. rewrite contains_lower, contains_substring. split.
  - intros (pre & mid & post & -> & Hm). exists pre, post.
    destruct mid as [|a [|b [|c [|]]]]; try done.
    cbn [Str.lower] in Hm. injection Hm as Ha Hb Hc.
    apply lower_char_digit in Ha, Hb, Hc; [|done..]. by subst.
  - intros (pre & post & ->). by exists pre, "503", post.
Qed.

(** X9. The class of an error does not depend on the letter case of its
    text: two texts that agree up to case are both transient or both
    not. *)
Theorem classification_ignores_case err1 err2 :
  Str.lower err1 = Str.lower err2 -> is_unavailable err1 = is_unavailable err2.
Proof.
  intros H. unfold is_unavailable.
  by rewrite <- (contains_503_lower err1), <- (contains_503_lower err2), H.
Qed.

(** X10. [os.path.exists] holds for a directory too: a non-empty path
    that names a directory under the static folder is handed to
    [send_from_directory], and index.html is not used in its place. *)
Theorem directory_is_not_replaced_by_index static_folder path w :
  path ≠ "" ->
  Os.path_join static_folder path ∈ dirs w ->
  serve_react static_folder path w = SentFile static_folder path.
Proof.
  intros Hne Hd. unfold serve_react, Os.path_exists.
  destruct (String.eqb_spec path "") as [?|_]; [done|].
  rewrite (bool_decide_eq_true_2 _ Hd), orb_true_r. reflexivity.
Qed.

(** ** Worked examples of the further properties *)

(** X1: a body that is the array [[1]]. *)
Lemma non_object_body_raises_witness :
  Sample.process (Sample.replies "[]") (JArr [JInt 1]) Sample.idle
  = (Raise "'list' object has no attribute 'get'", Sample.idle).
Proof.
  apply (non_object_body_raises Ref.loads Ref.float_repr Ref.printable Sample.here
           (Sample.replies "[]") (JArr [JInt 1]) Sample.idle); [reflexivity|].
  intros d H. discriminate H.
Defined.

(** X2: a body that is the number 0. *)
Lemma falsy_body_is_empty_object_witness :
  Sample.process (Sample.replies "[]") (JInt 0) Sample.idle
  = Sample.process (Sample.replies "[]") (JObj []) Sample.idle
  ∧ request_prompt Ref.float_repr Ref.printable (JInt 0) = Ok Sample.default_prompt.
Proof.
  apply (falsy_body_is_empty_object Ref.loads Ref.float_repr Ref.printable Sample.here
           (Sample.replies "[]") (JInt 0) Sample.idle). reflexivity.
Defined.

(** X3: a response without text, on the idle disk. *)
Lemma missing_text_is_answered_500_witness :
  fst (Sample.process Sample.silent (JObj []) Sample.idle)
  = Ok (Json 500 (JObj [("error", JStr "'NoneType' object has no attribute 'strip'")]))
  ∧ files (snd (Sample.process Sample.silent (JObj []) Sample.idle)) = ∅
  ∧ ∀ path content,
      OpenWrite path content ∈ trace (snd (Sample.process Sample.silent (JObj []) Sample.idle)) ->
      OpenWrite path content ∈ [].
Proof.
  apply (missing_text_is_answered_500 Ref.loads Ref.float_repr Ref.printable Sample.here
           Sample.silent (JObj []) Sample.idle Sample.default_prompt); reflexivity.
Defined.

(** X4: an invalid API key is answered, not raised. *)
Lemma process_notes_always_replies_witness :
  ∃ status payload,
    fst (Sample.process (Sample.fails "invalid api key") (JObj []) Sample.idle)
    = Ok (Json status payload)
    ∧ (status = 200 ∨ status = 500 ∨ status = 503)
    ∧ (status = 200 <->
       ∃ text, Sample.fails "invalid api key" (provider_request Sample.default_prompt)
               = Ok (Some text))
    ∧ (status ≠ 200 -> ∃ msg, payload = JObj [("error", JStr msg)]).
Proof.
  apply (process_notes_always_replies Ref.loads Ref.float_repr Ref.printable Sample.here
           (Sample.fails "invalid api key") (JObj []) Sample.idle Sample.default_prompt).
  reflexivity.
Defined.

(** X5: the call of a request that is answered. *)
Lemma provider_is_called_once_witness :
  trace (snd (Sample.process (Sample.replies Sample.good_text) (JObj []) Sample.idle))
  = [Generate Sample.default_prompt].
Proof.
  destruct (provider_is_called_once Ref.loads Ref.float_repr Ref.printable Sample.here
              (Sample.replies Sample.good_text) (JObj []) Sample.idle Sample.default_prompt
              eq_refl) as [(rest & Ht & _ & Hr) _].
  unfold Sample.process. rewrite Ht, Hr; [reflexivity|]. by exists Sample.good_text.
Defined.

(** X7: two failures at noon leave the prompt of the second. *)
Lemma failures_in_one_second_share_a_file_witness :
  files (snd (Sample.process (Sample.fails "503") Sample.null_tone
                (Os.at_time Sample.noon
                   (snd (Sample.process (Sample.fails "HTTP 503") Sample.notes_only
                           Sample.idle)))))
  = {[ Sample.stamped := build_prompt Ref.float_repr Ref.printable (JStr "shopping") JNull (JStr "") ]}.
Proof.
  destruct (failures_in_one_second_share_a_file Ref.loads Ref.float_repr Ref.printable Sample.here
              (Sample.fails "HTTP 503") (Sample.fails "503")
              Sample.notes_only Sample.null_tone Sample.idle Sample.noon
              (build_prompt Ref.float_repr Ref.printable (JStr "") (JStr "General") (JStr "buy milk??"))
              (build_prompt Ref.float_repr Ref.printable (JStr "shopping") JNull (JStr ""))
              "HTTP 503" "503" eq_refl eq_refl eq_refl eq_refl) as [H _].
  - left. by exists "HTTP ", "".
  - left. by exists "", "".
  - unfold Spec.utc_datetime. cbn. lia.
  - unfold Spec.utc_datetime. cbn. lia.
  - reflexivity.
  - reflexivity.
  - exact (H eq_refl).
Defined.

(** X9: one message in two letter cases. *)
Lemma classification_ignores_case_witness :
  is_unavailable "Service UNAVAILABLE" = is_unavailable "service unavailable".
Proof. apply (classification_ignores_case "Service UNAVAILABLE" "service unavailable"). reflexivity. Defined.

(** X10: the assets directory of a build that has an index.html. *)
Lemma directory_is_not_replaced_by_index_witness :
  serve_react Sample.static_folder "assets" Sample.with_assets
  = SentFile Sample.static_folder "assets".
Proof.
  apply (directory_is_not_replaced_by_index Sample.static_folder "assets" Sample.with_assets).
  - discriminate.
  - change ("/srv/notes/static/assets"
            ∈ ({[ "/srv/notes/static"; "/srv/notes/static/assets" ]} : gset string)).
    apply elem_of_union_r, elem_of_singleton. reflexivity.
Defined.

(** X11: the log of an overloaded model. *)
Lemma errors_are_logged_witness :
  ∃ err_text,
    Print ("Error generating content: " +:+ err_text)
    ∈ trace (snd (Sample.process (Sample.fails "The Model Is Overloaded") JNull Sample.idle))
    ∧ is_unavailable err_text = true.
Proof.
  destruct (errors_are_logged Ref.loads Ref.float_repr Ref.printable Sample.here
              (Sample.fails "The Model Is Overloaded") JNull Sample.idle Sample.default_prompt
              503 (JObj [("error", JStr unavailable_message)]) eq_refl eq_refl)
    as (err_text & Hin & _ & H503); [discriminate|].
  exists err_text. split; [exact Hin|]. exact (proj2 (H503 eq_refl)).
Defined.
